(** * ble_led interactors: a shallow embedding of
      [custom_components/ble_led/interactors.py] and its verified properties.

    The Python module drives an RGBW LED controller over Bluetooth Low Energy.
    It is embedded here as executable Rocq functions:

    - Python integers are [Z]; byte strings are [list byte]; text is [string];
    - the outside world (the clock, the Bluetooth backend, the [gatttool]
      subprocess, the producers filling the inbox) is a record of oracles
      together with the trace of the effects performed so far;
    - methods are computations in a small state-and-exception monad, so that
      the mutations made before an exception escapes are kept, as in Python. *)

From Stdlib Require Import ZArith List String Ascii Bool Lia QArith Qround.
From Stdlib Require Import Strings.Byte Strings.HexString.
Import ListNotations.
Open Scope string_scope.
Open Scope list_scope.
Open Scope Z_scope.

Set Implicit Arguments.

(** ** Python values shared by the whole module *)

Definition bytes := list byte.

(** The exception classes the module can meet. *)
Inductive exn : Type :=
| BluetoothBackendException (msg : string)
| CalledProcessError (returncode : Z) (stdout stderr : string)
| UnboundLocalError (name : string)
| OverflowError (msg : string)
| ValueError (msg : string)
| Empty
| OSError (msg : string)
| OtherException (name : string).

(** How a call ends: it returns, it raises, or it never comes back because it
    waits on a full bounded queue. *)
Inductive completion (A : Type) : Type :=
| Returned (a : A)
| Raised (e : exn)
| Blocked.
Arguments Returned {A} a.
Arguments Raised {A} e.
Arguments Blocked {A}.

Module Py.

(** [int.bit_length()]: the number of binary digits of the absolute value. *)
Definition bit_length (x : Z) : Z :=
  match x with
  | Z0 => 0
  | Zpos p => Zpos (Pos.size p)
  | Zneg p => Zpos (Pos.size p)
  end.

(** [math.ceil(a / b)] on integers [a], [b]: true division, then ceiling. *)
Definition ceil_div (a b : Z) : Z := Qceiling (inject_Z a / inject_Z b)%Q.

Definition byte_of_Z (z : Z) : byte :=
  match Byte.of_N (Z.to_N (z mod 256)) with
  | Some b => b
  | None => x00
  end.

Definition Z_of_byte (b : byte) : Z := Z.of_N (Byte.to_N b).

(** The [length] low-order base-256 digits of [v], most significant first. *)
Fixpoint big_endian (length : nat) (v : Z) : bytes :=
  match length with
  | O => []
  | S n => big_endian n (v / 256) ++ [byte_of_Z (v mod 256)]
  end.

(** [int.to_bytes(length, byteorder='big')], unsigned. *)
Definition to_bytes (v length : Z) : completion bytes :=
  if length <? 0 then Raised (ValueError "length argument must be non-negative")
  else if v <? 0 then Raised (OverflowError "can't convert negative int to unsigned")
  else if 256 ^ length <=? v then Raised (OverflowError "int too big to convert")
  else Returned (big_endian (Z.to_nat length) v).

(** [int.from_bytes(bs, 'big')]: used to state that [to_bytes] is big-endian. *)
Definition from_bytes (bs : bytes) : Z :=
  fold_left (fun acc b => acc * 256 + Z_of_byte b) bs 0.

(** [range(n)] as the list of the indices it yields. *)
Definition range (n : Z) : list Z := map Z.of_nat (seq 0 (Z.to_nat n)).

(** [sum(xs)]: a left fold from 0. *)
Definition sum (xs : list Z) : Z := fold_left Z.add xs 0.

(** [zip(xs, ys)] stops at the shorter argument. *)
Definition zip {A B : Type} (xs : list A) (ys : list B) : list (A * B) :=
  combine xs ys.

Fixpoint zeros (n : nat) : string :=
  match n with
  | O => ""
  | S n' => String "0" (zeros n')
  end.

(** [format(v, '0{width}x')]: lower-case hexadecimal, sign first, zero padded
    up to [width] characters ([width = 0] for the bare ['0x'] specification). *)
Definition format_x (width : nat) (v : Z) : string :=
  let digits := match v with
                | Z0 => "0"
                | Zpos p => HexString.Raw.of_pos p ""
                | Zneg p => HexString.Raw.of_pos p ""
                end in
  let sign := if v <? 0 then "-" else "" in
  sign ++ zeros (width - String.length sign - String.length digits) ++ digits.

End Py.

(** ** Effects: state, exceptions and the outside world *)

(** A computation over a mutable state [S]: the state reached is returned
    whatever the completion, so that what was done before a [raise] stays done. *)
Definition M (S A : Type) : Type := S -> completion A * S.

Definition ret {S A : Type} (a : A) : M S A := fun s => (Returned a, s).

Definition bind {S A B : Type} (c : M S A) (k : A -> M S B) : M S B :=
  fun s =>
    match c s with
    | (Returned a, s') => k a s'
    | (Raised e, s') => (Raised e, s')
    | (Blocked, s') => (Blocked, s')
    end.

Notation "x <- c1 ;; c2" := (bind c1 (fun x => c2))
  (at level 61, c1 at next level, right associativity).
Notation "c1 ;; c2" := (bind c1 (fun _ => c2))
  (at level 61, right associativity).

Definition raise {S A : Type} (e : exn) : M S A := fun s => (Raised e, s).
Definition gets {S A : Type} (f : S -> A) : M S A := fun s => (Returned (f s), s).
Definition modify {S : Type} (f : S -> S) : M S unit := fun s => (Returned tt, f s).

(** The completion of a call that touches no state. *)
Definition call {S A : Type} (r : completion A) : M S A := fun s => (r, s).

(** [try: c  except <the classes handler accepts> as e: handler e]. *)
Definition try_except {S A : Type} (c : M S A) (handler : exn -> option (M S A)) : M S A :=
  fun s =>
    match c s with
    | (Raised e, s') =>
        match handler e with
        | Some h => h s'
        | None => (Raised e, s')
        end
    | r => r
    end.

(** The exit half of a [with] block: [cleanup] runs whether [c] returned or
    raised, and the completion of [c] is the one of the block. *)
Definition finally {S A : Type} (c : M S A) (cleanup : S -> S) : M S A :=
  fun s =>
    match c s with
    | (Blocked, s') => (Blocked, s')
    | (r, s') => (r, cleanup s')
    end.

(** Where a [for] body leaves the loop. *)
Inductive flow : Type := Next | Break.

(** [for i in idxs: body i].  The result is the last value bound to the loop
    variable, which Python leaves in scope after the loop: [None] when the
    loop ran zero times and the variable was never bound. *)
Fixpoint for_in {S : Type} (body : Z -> M S flow) (idxs : list Z) (last : option Z)
  : M S (option Z) :=
  match idxs with
  | [] => ret last
  | i :: rest =>
      f <- body i ;;
      match f with
      | Break => ret (Some i)
      | Next => for_in body rest (Some i)
      end
  end.

(** A command for the controller: [(handle, payload)]. *)
Definition command : Type := Z * bytes.

Inductive level : Type := INFO | WARNING | ERROR.

(** The log records of the module, by their format string. *)
Inductive message : Type :=
| MsgSendingValue (value : Z)
| MsgCommandIs (argv : list string)
| MsgCommandFailed (n : Z) (e : exn)
| MsgConnectionFailed (e : exn)
| MsgConnectionTook (elapsed : Q)
| MsgTookAttempts (address : string) (count : Z)
| MsgWorkerNotAlive (address : string)
| MsgSubmitting (address : string) (qsize : Z)
| MsgWorkerStats (address : string) (loop_count failure_count : Z).

(** What the program does to the outside world, in order. *)
Inductive effect : Type :=
| EvLog (lvl : level) (m : message)
| EvConnect (address : string)
| EvConnectFailed (address : string) (e : exn)
| EvWriteHandle (handle : Z) (payload : bytes)
| EvWriteHandleFailed (handle : Z) (payload : bytes) (e : exn)
| EvDisconnect (address : string)
| EvRun (argv : list string) (returncode : Z)
| EvRunFailed (argv : list string) (e : exn).

(** What the backend does with one [connect]: it raises, or it opens a
    connection on which [write_handle], if called, returns or raises. *)
Inductive conn_behaviour : Type :=
| ConnectRaises (e : exn)
| Connected (write_raises : option exn).

(** What one [subprocess.run] does: the tool runs and exits, or it cannot be
    started at all and the call raises an [OSError]. *)
Inductive proc_behaviour : Type :=
| Exits (returncode : Z) (stdout stderr : string)
| SpawnRaises (msg : string).

(** The outside world: the trace of effects so far (oldest first) and, for
    each external call, an oracle giving the answer of its n-th use. *)
Record World : Type := {
  trace : list effect;
  clock : nat -> Q;
  clock_reads : nat;
  backend : nat -> conn_behaviour;
  dials : nat;
  tool : nat -> proc_behaviour;
  spawns : nat;
  producers : nat -> list command;
  waits : nat
}.

Definition emit (ev : effect) (w : World) : World :=
  {| trace := trace w ++ [ev];
     clock := clock w; clock_reads := clock_reads w;
     backend := backend w; dials := dials w;
     tool := tool w; spawns := spawns w;
     producers := producers w; waits := waits w |}.

Definition log (lvl : level) (m : message) : M World unit :=
  modify (emit (EvLog lvl m)).

(** [time.time()]: the readings are taken as exact rationals. *)
Definition time_time : M World Q :=
  fun w =>
    (Returned (clock w (clock_reads w)),
     {| trace := trace w;
        clock := clock w; clock_reads := S (clock_reads w);
        backend := backend w; dials := dials w;
        tool := tool w; spawns := spawns w;
        producers := producers w; waits := waits w |}).

Definition next_dial (w : World) : World :=
  {| trace := trace w;
     clock := clock w; clock_reads := clock_reads w;
     backend := backend w; dials := S (dials w);
     tool := tool w; spawns := spawns w;
     producers := producers w; waits := waits w |}.

Definition next_spawn (w : World) : World :=
  {| trace := trace w;
     clock := clock w; clock_reads := clock_reads w;
     backend := backend w; dials := dials w;
     tool := tool w; spawns := S (spawns w);
     producers := producers w; waits := waits w |}.

Definition next_wait (w : World) : World :=
  {| trace := trace w;
     clock := clock w; clock_reads := clock_reads w;
     backend := backend w; dials := dials w;
     tool := tool w; spawns := spawns w;
     producers := producers w; waits := S (waits w) |}.

(** An open connection of the backend. *)
Record Connection : Type := {
  peer : string;
  write_raises : option exn
}.

(** [connection.write_handle(handle, payload)]. *)
Definition write_handle (connection : Connection) (handle : Z) (payload : bytes)
  : M World unit :=
  match write_raises connection with
  | None => modify (emit (EvWriteHandle handle payload))
  | Some e => modify (emit (EvWriteHandleFailed handle payload e)) ;; raise e
  end.

(** [with interface.connect(address) as connection: body connection].
    Entering the block dials the peripheral and may raise; once entered, the
    connection is released on every exit of the body. *)
Definition with_connection {A : Type} (address : string) (body : Connection -> M World A)
  : M World A :=
  fun w =>
    match backend w (dials w) with
    | ConnectRaises e => (Raised e, emit (EvConnectFailed address e) (next_dial w))
    | Connected wr =>
        finally (body {| peer := address; write_raises := wr |})
                (emit (EvDisconnect address))
                (emit (EvConnect address) (next_dial w))
    end.

(** [subprocess.run(argv, capture_output=True, check=True)]. *)
Definition subprocess_run (argv : list string) : M World unit :=
  fun w =>
    match tool w (spawns w) with
    | SpawnRaises msg =>
        (Raised (OSError msg), emit (EvRunFailed argv (OSError msg)) (next_spawn w))
    | Exits rc out err =>
        let w' := emit (EvRun argv rc) (next_spawn w) in
        if rc =? 0 then (Returned tt, w')
        else (Raised (CalledProcessError rc out err), w')
    end.

(** ** [class RGBWInteractor(abc.ABC)] *)

Module RGBWInteractor.

Definition control_handle : Z := 0x0007.
Definition rgb_offsets : list Z := [5 * 8; 4 * 8; 3 * 8].
Definition rgb_base : Z := 0x5600000000f0aa.
Definition white_offset : Z := 2 * 8.
Definition white_base : Z := 0x56000000000faa.

(** The abstract base class: a subclass [I] supplies [_write], run over the
    state [S] of its own. *)
Class Interface (I S : Type) : Type := {
  address : I -> string;
  _write : I -> Z -> M S unit
}.

Section Methods.
Context {I S : Type} `{Interface I S}.

Definition set_on (self : I) : M S unit := _write self 0xcc2333.

Definition set_off (self : I) : M S unit := _write self 0xcc2433.

Definition set_color (self : I) (values : list Z) : M S unit :=
  _write self
    (rgb_base + Py.sum (map (fun vo => Z.shiftl (fst vo) (snd vo))
                            (Py.zip values rgb_offsets))).

Definition set_white (self : I) (value : Z) : M S unit :=
  _write self (white_base + Z.shiftl value white_offset).
End Methods.

End RGBWInteractor.

(** ** [class GATTToolRGBWInteractor(RGBWInteractor)] *)

Module GATTToolRGBWInteractor.
Import RGBWInteractor.

Record t : Type := { address : string }.

Definition executable : string := "gatttool".

Definition _write (self : t) (value : Z) : M World unit :=
  log WARNING (MsgSendingValue value) ;;
  let command := [executable; "-b"; address self; "--char-write-req";
                  ("--handle=0x" ++ Py.format_x 4 control_handle)%string;
                  ("--value=" ++ Py.format_x 0 value)%string] in
  log WARNING (MsgCommandIs command) ;;
  for_in (fun n =>
            try_except
              (subprocess_run command ;;
               ret Break)
              (fun e =>
                 match e with
                 | CalledProcessError _ _ _ =>
                     Some (log WARNING (MsgCommandFailed n e) ;; ret Next)
                 | _ => None
                 end))
         (Py.range 5) None ;;
  ret tt.

#[export] Instance interactor : Interface t World :=
  {| RGBWInteractor.address := address; RGBWInteractor._write := _write |}.

End GATTToolRGBWInteractor.

(** ** [class BtlewrapWorker(threading.Thread)] *)

(** [queue.Queue(maxsize)]: unbounded when [maxsize <= 0]. *)
Record Queue : Type := {
  maxsize : Z;
  items : list command
}.

Module BtlewrapWorker.

(** The worker object; [alive] is what [Thread.is_alive()] answers. *)
Record t : Type := {
  address : string;
  keepalive_interval : Q;
  attempts : Z;
  queue : Queue;
  failure_count : Z;
  success_count : Z;
  loop_count : Z;
  empty_count : Z;
  alive : bool
}.

(** [__init__]: the thread is not started yet. *)
Definition init (address : string) (keepalive_interval : Q) (attempts : Z) : t :=
  {| address := address;
     keepalive_interval := keepalive_interval;
     attempts := attempts;
     queue := {| maxsize := 0; items := [] |};
     failure_count := 0;
     success_count := 0;
     loop_count := 0;
     empty_count := 0;
     alive := false |}.

Definition set_queue (q : Queue) (self : t) : t :=
  {| address := address self; keepalive_interval := keepalive_interval self;
     attempts := attempts self; queue := q;
     failure_count := failure_count self; success_count := success_count self;
     loop_count := loop_count self; empty_count := empty_count self;
     alive := alive self |}.

Definition set_failure_count (n : Z) (self : t) : t :=
  {| address := address self; keepalive_interval := keepalive_interval self;
     attempts := attempts self; queue := queue self;
     failure_count := n; success_count := success_count self;
     loop_count := loop_count self; empty_count := empty_count self;
     alive := alive self |}.

Definition set_success_count (n : Z) (self : t) : t :=
  {| address := address self; keepalive_interval := keepalive_interval self;
     attempts := attempts self; queue := queue self;
     failure_count := failure_count self; success_count := n;
     loop_count := loop_count self; empty_count := empty_count self;
     alive := alive self |}.

Definition set_loop_count (n : Z) (self : t) : t :=
  {| address := address self; keepalive_interval := keepalive_interval self;
     attempts := attempts self; queue := queue self;
     failure_count := failure_count self; success_count := success_count self;
     loop_count := n; empty_count := empty_count self;
     alive := alive self |}.

Definition set_empty_count (n : Z) (self : t) : t :=
  {| address := address self; keepalive_interval := keepalive_interval self;
     attempts := attempts self; queue := queue self;
     failure_count := failure_count self; success_count := success_count self;
     loop_count := loop_count self; empty_count := n;
     alive := alive self |}.

Definition set_alive (b : bool) (self : t) : t :=
  {| address := address self; keepalive_interval := keepalive_interval self;
     attempts := attempts self; queue := queue self;
     failure_count := failure_count self; success_count := success_count self;
     loop_count := loop_count self; empty_count := empty_count self;
     alive := b |}.

(** The state the worker thread runs in: the worker object, which the
    interactor that owns it shares, and the outside world. *)
Record Machine : Type := {
  worker : t;
  world : World
}.

(** A computation on the world, run inside a machine. *)
Definition inW {A : Type} (c : M World A) : M Machine A :=
  fun s =>
    let (r, w) := c (world s) in
    (r, {| worker := worker s; world := w |}).

Definition update (f : t -> t) : M Machine unit :=
  modify (fun s => {| worker := f (worker s); world := world s |}).

(** [Queue.qsize()]. *)
Definition qsize (q : Queue) : Z := Z.of_nat (List.length (items q)).

(** [self.queue.put(item)] with the default [block=True, timeout=None]: it
    waits for a free slot, for ever if the queue is bounded and full. *)
Definition queue_put (item : command) : M Machine unit :=
  fun s =>
    let q := queue (worker s) in
    if (0 <? maxsize q) && (maxsize q <=? qsize q) then (Blocked, s)
    else update (set_queue {| maxsize := maxsize q; items := items q ++ [item] |}) s.

(** [self.queue.get(timeout=timeout)]: the head of the queue, waiting for it
    up to [timeout]; what the producers put during the wait is in the queue
    when the wait ends, and [Empty] is raised if there is still nothing. *)
Definition queue_get (timeout : Q) : M Machine command :=
  if Qle_bool 0 timeout then
    fun s =>
      let q := queue (worker s) in
      let w := world s in
      let pending := items q ++ producers w (waits w) in
      let s' rest := {| worker := set_queue {| maxsize := maxsize q; items := rest |}
                                            (worker s);
                        world := next_wait w |} in
      match pending with
      | [] => (Raised Empty, s' [])
      | item :: rest => (Returned item, s' rest)
      end
  else raise (ValueError "'timeout' must be a non-negative number").

(** One turn of the retry loop of [write]: the body of
    [for i in range(self.attempts)]. *)
Definition attempt (event : option command) (i : Z) : M Machine flow :=
  self <- gets worker ;;
  start <- inW time_time ;;
  f <- try_except
         (inW (with_connection (address self)
                 (fun connection =>
                    match event with
                    | Some (handle, payload) => write_handle connection handle payload
                    | None => ret tt
                    end)) ;;
          update (fun self => set_success_count (success_count self + 1) self) ;;
          ret Break)
         (fun e =>
            match e with
            | BluetoothBackendException _ =>
                Some (inW (log INFO (MsgConnectionFailed e)) ;;
                      update (fun self => set_failure_count (failure_count self + 1) self) ;;
                      ret Next)
            | _ => None
            end) ;;
  match f with
  | Break => ret Break
  | Next =>
      now <- inW time_time ;;
      let elapsed := (now - start)%Q in
      (if Qle_bool elapsed 10 then ret tt
       else inW (log INFO (MsgConnectionTook elapsed))) ;;
      ret Next
  end.

(** [def write(self, event)]. *)
Definition write (event : option command) : M Machine unit :=
  self <- gets worker ;;
  i <- for_in (attempt event) (Py.range (attempts self)) None ;;
  match i with
  | None => raise (UnboundLocalError "i")
  | Some i =>
      if 10 <? i
      then inW (log WARNING (MsgTookAttempts (address self) (i + 1)))
      else ret tt
  end.

(** One turn of the [while True] loop of [run]. *)
Definition run_iteration : M Machine unit :=
  update (fun self => set_loop_count (loop_count self + 1) self) ;;
  self <- gets worker ;;
  event <- try_except
             (item <- queue_get (keepalive_interval self) ;;
              ret (Some item))
             (fun e =>
                match e with
                | Empty =>
                    Some (update (fun self => set_empty_count (empty_count self + 1) self) ;;
                          ret None)
                | _ => None
                end) ;;
  write event.

(** [def run(self)]: the loop has no exit, so [run n] is its first [n]
    turns; it ends earlier only by an exception that escapes a turn. *)
Fixpoint run (turns : nat) : M Machine unit :=
  match turns with
  | O => ret tt
  | S n => run_iteration ;; run n
  end.

(** [start()] then [n] turns of [run] on the worker's thread: the thread is
    alive while [run] runs and dead once an exception has escaped it. *)
Definition thread (turns : nat) (s : Machine) : Machine :=
  let started := {| worker := set_alive true (worker s); world := world s |} in
  match run turns started with
  | (Raised _, s') => {| worker := set_alive false (worker s'); world := world s' |}
  | (_, s') => s'
  end.

End BtlewrapWorker.

(** ** [class BtlewrapRGBWInteractor(RGBWInteractor)] *)

Module BtlewrapRGBWInteractor.
Import RGBWInteractor.

(** The interactor object; its [worker] is the one of the machine. *)
Record t : Type := { address : string }.

(** [__init__]: a worker for the address, two seconds between keepalives,
    a hundred attempts per item, started at once. *)
Definition init (address : string) (w : World) : t * BtlewrapWorker.Machine :=
  ({| address := address |},
   {| BtlewrapWorker.worker :=
        BtlewrapWorker.set_alive true
          (BtlewrapWorker.init address (inject_Z 2) 100);
      BtlewrapWorker.world := w |}).

Definition _pack (value : Z) : completion bytes :=
  let num_bytes := Py.ceil_div (Py.bit_length value) 8 in
  Py.to_bytes value num_bytes.

Definition _write (self : t) (value : Z) : M BtlewrapWorker.Machine unit :=
  worker <- gets BtlewrapWorker.worker ;;
  (if negb (BtlewrapWorker.alive worker)
   then BtlewrapWorker.inW (log ERROR (MsgWorkerNotAlive (address self)))
   else ret tt) ;;
  BtlewrapWorker.inW
    (log INFO (MsgSubmitting (address self)
                 (BtlewrapWorker.qsize (BtlewrapWorker.queue worker)))) ;;
  BtlewrapWorker.inW
    (log INFO (MsgWorkerStats (address self)
                 (BtlewrapWorker.loop_count worker)
                 (BtlewrapWorker.failure_count worker))) ;;
  packed <- call (_pack value) ;;
  BtlewrapWorker.queue_put (control_handle, packed).

#[export] Instance interactor : Interface t BtlewrapWorker.Machine :=
  {| RGBWInteractor.address := address; RGBWInteractor._write := _write |}.

End BtlewrapRGBWInteractor.

(** * Observations

    What the proofs read off a machine and its trace. *)

(** ** The connection cycle of the worker *)

Import BtlewrapWorker.

(** What one connection cycle raises on a given behaviour of the backend:
    the write is only attempted when there is an event. *)
Definition cycle_raises (event : option command) (b : conn_behaviour) : option exn :=
  match b with
  | ConnectRaises e => Some e
  | Connected wr =>
      match event with
      | Some _ => wr
      | None => None
      end
  end.

(** The effects of one connection cycle on the trace. *)
Definition cycle_events (address : string) (event : option command) (b : conn_behaviour)
  : list effect :=
  match b with
  | ConnectRaises e => [EvConnectFailed address e]
  | Connected wr =>
      EvConnect address
      :: match event, wr with
         | None, _ => []
         | Some (h, p), None => [EvWriteHandle h p]
         | Some (h, p), Some e => [EvWriteHandleFailed h p e]
         end
      ++ [EvDisconnect address]
  end.

(** A machine after some steps of the worker: [self] is the worker object
    reached, [new] was appended to the trace, the clock was read [reads] more
    times and [dialled] more connections were asked of the backend. *)
Definition evolve (s : Machine) (self : t) (new : list effect) (reads dialled : nat)
  : Machine :=
  {| worker := self;
     world :=
       {| trace := trace (world s) ++ new;
          clock := clock (world s);
          clock_reads := (reads + clock_reads (world s))%nat;
          backend := backend (world s);
          dials := (dialled + dials (world s))%nat;
          tool := tool (world s); spawns := spawns (world s);
          producers := producers (world s); waits := waits (world s) |} |}.

Definition next_behaviour (s : Machine) : conn_behaviour :=
  backend (world s) (dials (world s)).

(** What the backend will do with the [j]-th connection asked from now on. *)
Definition behaviour_at (s : Machine) (j : nat) : conn_behaviour :=
  backend (world s) (j + dials (world s))%nat.

Definition transport_failure (e : exn) : bool :=
  match e with
  | BluetoothBackendException _ => true
  | _ => false
  end.

(** A cycle fails when it raises the backend's exception, the one [write]
    catches; it succeeds when it raises nothing. *)
Definition cycle_fails (event : option command) (b : conn_behaviour) : bool :=
  match cycle_raises event b with
  | Some e => transport_failure e
  | None => false
  end.

Definition cycle_succeeds (event : option command) (b : conn_behaviour) : bool :=
  match cycle_raises event b with
  | Some _ => false
  | None => true
  end.

(** The backend keeps its contract on the next [n] cycles: each one succeeds
    or fails with the backend's exception. *)
Definition honours_contract (event : option command) (s : Machine) (n : nat) : Prop :=
  forall j, (j < n)%nat ->
    cycle_succeeds event (behaviour_at s j) || cycle_fails event (behaviour_at s j) = true.

(** The worker object after [failures] failed and [successes] successful attempts. *)
Definition tally (self : t) (failures successes : Z) : t :=
  set_success_count (success_count self + successes)
    (set_failure_count (failure_count self + failures) self).

(** What [write] leaves alone in the worker object: all but its two counters
    of attempts. *)
Definition same_settings (w w' : t) : Prop :=
  address w' = address w /\ keepalive_interval w' = keepalive_interval w /\
  attempts w' = attempts w /\ queue w' = queue w /\
  loop_count w' = loop_count w /\ empty_count w' = empty_count w /\
  alive w' = alive w.

(** The record logged after a failed attempt that took more than ten seconds. *)
Definition slow_log (elapsed : Q) : list effect :=
  if Qle_bool elapsed 10 then [] else [EvLog INFO (MsgConnectionTook elapsed)].

(** The event [run] hands to [write] after its wait on the inbox, and the
    machine at that point: the turn is counted, the producers' commands are
    in the queue, and either the head of the queue was taken or the wait
    timed out and was counted as empty. *)
Definition after_poll (s : Machine) : option command * Machine :=
  let q := queue (worker s) in
  let counted := set_loop_count (loop_count (worker s) + 1) (worker s) in
  let emptied rest := set_queue {| maxsize := maxsize q; items := rest |} counted in
  match items q ++ producers (world s) (waits (world s)) with
  | [] =>
      (None,
       {| worker := set_empty_count (empty_count counted + 1) (emptied []);
          world := next_wait (world s) |})
  | item :: rest =>
      (Some item, {| worker := emptied rest; world := next_wait (world s) |})
  end.

(** The record [write] logs after its loop, by the count of attempts made. *)
Definition attempts_warning (address : string) (made : Z) : list effect :=
  if 10 <? made - 1 then [EvLog WARNING (MsgTookAttempts address made)] else [].

(** ** Reading a trace *)

(** The commands written with success, in order. *)
Definition written (tr : list effect) : list command :=
  flat_map (fun ev => match ev with
                      | EvWriteHandle h p => [(h, p)]
                      | _ => []
                      end) tr.

(** The commands whose write was asked of a connection, with or without success. *)
Definition write_calls (tr : list effect) : list command :=
  flat_map (fun ev => match ev with
                      | EvWriteHandle h p => [(h, p)]
                      | EvWriteHandleFailed h p _ => [(h, p)]
                      | _ => []
                      end) tr.

(** The attempt-count warnings: the address and the count each one names. *)
Definition warned (tr : list effect) : list (string * Z) :=
  flat_map (fun ev => match ev with
                      | EvLog WARNING (MsgTookAttempts a n) => [(a, n)]
                      | _ => []
                      end) tr.

(** The records logged at level [ERROR]. *)
Definition errors (tr : list effect) : list message :=
  flat_map (fun ev => match ev with
                      | EvLog ERROR m => [m]
                      | _ => []
                      end) tr.

(** The exit codes of the runs of the external tool, in order. *)
Definition tool_runs (tr : list effect) : list Z :=
  flat_map (fun ev => match ev with
                      | EvRun _ rc => [rc]
                      | _ => []
                      end) tr.

(** The attempt numbers of the logged failures of the external tool. *)
Definition command_failures (tr : list effect) : list Z :=
  flat_map (fun ev => match ev with
                      | EvLog WARNING (MsgCommandFailed n _) => [n]
                      | _ => []
                      end) tr.

(** What was appended to the trace [before] to reach the trace [after]. *)
Definition appended (before after : list effect) : list effect :=
  skipn (List.length before) after.

(** A world after [new] was appended to its trace and the external tool was
    started [started] more times. *)
Definition respawn (w : World) (new : list effect) (started : nat) : World :=
  {| trace := trace w ++ new;
     clock := clock w; clock_reads := clock_reads w;
     backend := backend w; dials := dials w;
     tool := tool w; spawns := (started + spawns w)%nat;
     producers := producers w; waits := waits w |}.

(** The command line the synchronous writer runs. *)
Definition gatttool_argv (self : GATTToolRGBWInteractor.t) (value : Z) : list string :=
  [GATTToolRGBWInteractor.executable; "-b"; GATTToolRGBWInteractor.address self;
   "--char-write-req";
   ("--handle=0x" ++ Py.format_x 4 RGBWInteractor.control_handle)%string;
   ("--value=" ++ Py.format_x 0 value)%string].

(** The body of the retry loop of the synchronous writer. *)
Definition gatttool_attempt (argv : list string) (n : Z) : M World flow :=
  try_except
    (subprocess_run argv ;;
     ret Break)
    (fun e =>
       match e with
       | CalledProcessError _ _ _ =>
           Some (log WARNING (MsgCommandFailed n e) ;; ret Next)
       | _ => None
       end).

(** A trace made of whole connection cycles to [address] and of log records:
    a connection that opens is released, after exactly one write of the
    event's payload to the event's handle when there is an event, and after
    nothing when there is none. *)
Inductive cycles (address : string) (event : option command) : list effect -> Prop :=
| cycles_nil : cycles address event []
| cycles_log lvl m tr :
    cycles address event tr -> cycles address event (EvLog lvl m :: tr)
| cycles_refused e tr :
    cycles address event tr -> cycles address event (EvConnectFailed address e :: tr)
| cycles_keepalive tr :
    event = None -> cycles address event tr ->
    cycles address event (EvConnect address :: EvDisconnect address :: tr)
| cycles_written h p tr :
    event = Some (h, p) -> cycles address event tr ->
    cycles address event
      (EvConnect address :: EvWriteHandle h p :: EvDisconnect address :: tr)
| cycles_write_failed h p e tr :
    event = Some (h, p) -> cycles address event tr ->
    cycles address event
      (EvConnect address :: EvWriteHandleFailed h p e :: EvDisconnect address :: tr).

(** What a machine did between two of its states. *)
Definition since (s s' : Machine) : list effect :=
  skipn (List.length (trace (world s))) (trace (world s')).

(** ** Sample machines, for the examples *)

Definition sample_address : string := "C4:BE:84:00:00:01".

(** A world with an empty trace, a clock that ticks one second a reading, a
    tool that runs and exits with [exit_code], the backend [b] and the
    producers [p]. *)
Definition sample_world (b : nat -> conn_behaviour) (p : nat -> list command)
           (exit_code : nat -> Z) : World :=
  {| trace := [];
     clock := fun n => inject_Z (Z.of_nat n); clock_reads := 0;
     backend := b; dials := 0;
     tool := fun n => Exits (exit_code n) "" ""; spawns := 0;
     producers := p; waits := 0 |}.

(** A started worker allowed [attempts] attempts, two seconds between keepalives. *)
Definition sample_machine (attempts : Z) (b : nat -> conn_behaviour)
           (p : nat -> list command) : Machine :=
  {| worker := set_alive true (BtlewrapWorker.init sample_address (inject_Z 2) attempts);
     world := sample_world b p (fun _ => 0) |}.

(** The same machine once its thread has died. *)
Definition dead (s : Machine) : Machine :=
  {| worker := set_alive false (worker s); world := world s |}.

Definition refused : conn_behaviour :=
  ConnectRaises (BluetoothBackendException "Failed to connect to peripheral").

(** A backend that refuses [k] connections and accepts the following ones. *)
Definition fails_then_succeeds (k : nat) : nat -> conn_behaviour :=
  fun n => if (n <? k)%nat then refused else Connected None.

Definition always_fails : nat -> conn_behaviour := fun _ => refused.

Definition quiet : nat -> list command := fun _ => [].

(** Producers that put one command in the inbox during the first wait. *)
Definition one_command (c : command) : nat -> list command :=
  fun n => match n with
           | O => [c]
           | S _ => []
           end.

Definition sample_interactor : BtlewrapRGBWInteractor.t :=
  {| BtlewrapRGBWInteractor.address := sample_address |}.

Definition sample_command : command := (RGBWInteractor.control_handle, [xcc; x23; x33]).

(** Brings a state built by the operations of the world to its record form,
    with the appended effects grouped to the right of the initial trace. *)
Ltac normalise_state :=
  cbn; unfold emit, next_dial, next_wait, next_spawn; cbn;
  rewrite <- ?app_assoc; cbn [app].

Ltac worker_fields :=
  cbv [tally set_success_count set_failure_count failure_count success_count
       address keepalive_interval attempts queue loop_count empty_count alive].

(** ** Further observations *)

(** The elapsed times reported by the log of slow attempts. *)
Definition slow_reports (tr : list effect) : list Q :=
  flat_map (fun ev => match ev with
                      | EvLog INFO (MsgConnectionTook elapsed) => [elapsed]
                      | _ => []
                      end) tr.

(** A behaviour of the backend within its contract, whatever the event: what
    it raises, on connecting or on writing, is its own exception. *)
Definition well_behaved (b : conn_behaviour) : bool :=
  match b with
  | ConnectRaises e => transport_failure e
  | Connected None => true
  | Connected (Some e) => transport_failure e
  end.

(** The backend opens the connection. *)
Definition accepts (b : conn_behaviour) : bool :=
  match b with
  | Connected _ => true
  | ConnectRaises _ => false
  end.

(** The effects of [n] keepalive cycles that the backend accepts. *)
Definition keepalive_cycles (address : string) (n : nat) : list effect :=
  List.concat (repeat [EvConnect address; EvDisconnect address] n).

(** A started worker with commands already in its inbox. *)
Definition loaded_machine (attempts : Z) (b : nat -> conn_behaviour)
           (p : nat -> list command) (pending : list command) : Machine :=
  {| worker := set_queue {| maxsize := 0; items := pending |}
                 (set_alive true
                    (BtlewrapWorker.init sample_address (inject_Z 2) attempts));
     world := sample_world b p (fun _ => 0) |}.



(** The waits on the inbox that time out, among the [n] waits made from the
    wait numbered [wait] on, when [queued] commands are in the queue before
    the first of them: each wait first receives what the producers put, and
    then either finds the queue empty or takes one command from it. *)
Fixpoint empty_waits (puts : nat -> list command) (queued wait n : nat) : nat :=
  match n with
  | O => O
  | S m =>
      match (queued + List.length (puts wait))%nat with
      | O => S (empty_waits puts 0 (S wait) m)
      | S remaining => empty_waits puts remaining (S wait) m
      end
  end.

(** What the producers put in the inbox during the [n] waits made from the
    wait numbered [wait] on. *)
Definition put_during (puts : nat -> list command) (wait n : nat) : list command :=
  List.concat (map puts (seq wait n)).

(** * Verification *)

Example bit_length_examples :
  Py.bit_length 0 = 0 /\ Py.bit_length 1 = 1 /\ Py.bit_length 255 = 8 /\
  Py.bit_length 256 = 9 /\ Py.bit_length (-256) = 9.
Proof. repeat split. Qed.

Example format_x_examples :
  Py.format_x 4 7 = "0007" /\ Py.format_x 0 0xcc2333 = "cc2333" /\
  Py.format_x 0 (-1) = "-1" /\ Py.format_x 4 (-7) = "-007" /\ Py.format_x 0 0 = "0".
Proof. repeat split. Qed.

Example ceil_div_examples :
  Py.ceil_div 0 8 = 0 /\ Py.ceil_div 1 8 = 1 /\ Py.ceil_div 8 8 = 1 /\ Py.ceil_div 9 8 = 2.
Proof. repeat split. Qed.


(** ** Integers and bytes *)

Lemma ceil_div_8 (a : Z) : Py.ceil_div a 8 = (a + 7) / 8.
Proof.
  unfold Py.ceil_div, Qceiling, Qfloor. cbn.
  rewrite Z.mul_1_r. Z.div_mod_to_equations. lia.
Qed.

Lemma bit_length_bounds (v : Z) :
  0 < v -> 0 < Py.bit_length v /\ 2 ^ (Py.bit_length v - 1) <= v < 2 ^ Py.bit_length v.
Proof.
  destruct v as [|p|p]; try lia. intros _. cbn [Py.bit_length].
  pose proof (Pos.size_gt p) as Hgt. pose proof (Pos.size_le p) as Hle.
  assert (Hpow : Z.pos (2 ^ Pos.size p) = 2 ^ Z.pos (Pos.size p))
    by (rewrite Pos2Z.inj_pow; reflexivity).
  assert (Hsplit : 2 ^ Z.pos (Pos.size p) = 2 * 2 ^ (Z.pos (Pos.size p) - 1)).
  { rewrite <- Z.pow_succ_r by lia. f_equal. lia. }
  split; [lia|]. split; lia.
Qed.

Lemma Z_of_byte_of_Z (z : Z) : Py.Z_of_byte (Py.byte_of_Z z) = z mod 256.
Proof.
  unfold Py.Z_of_byte, Py.byte_of_Z.
  assert (Hr : 0 <= z mod 256 < 256) by (apply Z.mod_pos_bound; lia).
  destruct (Byte.of_N (Z.to_N (z mod 256))) as [b|] eqn:E.
  - apply Byte.to_of_N in E. rewrite E. lia.
  - apply Byte.of_N_None_iff in E. lia.
Qed.

Lemma from_bytes_snoc (bs : bytes) (b : byte) :
  Py.from_bytes (bs ++ [b]) = Py.from_bytes bs * 256 + Py.Z_of_byte b.
Proof. unfold Py.from_bytes. rewrite fold_left_app. reflexivity. Qed.

Lemma big_endian_length (n : nat) (v : Z) : List.length (Py.big_endian n v) = n.
Proof.
  revert v. induction n as [|n IH]; intros v; cbn [Py.big_endian]; [reflexivity|].
  rewrite length_app, IH. cbn. lia.
Qed.

(** [big_endian] writes the value in base 256, most significant digit first. *)
Lemma from_bytes_big_endian (n : nat) (v : Z) :
  0 <= v -> Py.from_bytes (Py.big_endian n v) = v mod 256 ^ Z.of_nat n.
Proof.
  revert v. induction n as [|n IH]; intros v Hv.
  - cbn. rewrite Z.mod_1_r. reflexivity.
  - cbn [Py.big_endian]. rewrite from_bytes_snoc, Z_of_byte_of_Z, IH
      by (apply Z.div_pos; lia).
    rewrite Nat2Z.inj_succ, Z.pow_succ_r by lia.
    rewrite Z.rem_mul_r, Z.mod_mod by lia. ring.
Qed.

Lemma big_endian_head (n : nat) (v : Z) :
  Py.big_endian (S n) v
  = Py.byte_of_Z ((v / 256 ^ Z.of_nat n) mod 256) :: Py.big_endian n v.
Proof.
  revert v. induction n as [|n IH]; intros v.
  - cbn [Py.big_endian Z.of_nat app]. rewrite Z.pow_0_r, Z.div_1_r. reflexivity.
  - change (Py.big_endian (S (S n)) v)
      with (Py.big_endian (S n) (v / 256) ++ [Py.byte_of_Z (v mod 256)]).
    rewrite IH. cbn [app Py.big_endian]. f_equal.
    rewrite Nat2Z.inj_succ, Z.pow_succ_r, Z.div_div by lia. reflexivity.
Qed.

Lemma byte_of_Z_nonzero (z : Z) : z mod 256 <> 0 -> Py.byte_of_Z z <> x00.
Proof.
  intros Hz E. apply Hz. rewrite <- Z_of_byte_of_Z, E. reflexivity.
Qed.

(** The byte count [_pack] asks for is the least that holds the value. *)
Lemma num_bytes_bounds (v : Z) :
  0 < v ->
  let n := Py.ceil_div (Py.bit_length v) 8 in
  0 < n /\ 256 ^ (n - 1) <= v < 256 ^ n.
Proof.
  intros Hv n. subst n. rewrite ceil_div_8.
  destruct (bit_length_bounds Hv) as (Hl & Hlo & Hhi).
  set (l := Py.bit_length v) in *. set (n := (l + 7) / 8).
  assert (Hn : 8 * n <= l + 7 /\ l <= 8 * n)
    by (subst n; Z.div_mod_to_equations; lia).
  assert (H256 : forall k, 0 <= k -> 256 ^ k = 2 ^ (8 * k)).
  { intros k Hk. rewrite Z.pow_mul_r by lia. reflexivity. }
  split; [lia|]. rewrite !H256 by lia. split.
  - apply Z.le_trans with (2 ^ (l - 1)); [|exact Hlo].
    apply Z.pow_le_mono_r; lia.
  - apply Z.lt_le_trans with (2 ^ l); [exact Hhi|].
    apply Z.pow_le_mono_r; lia.
Qed.

Lemma pack_nonneg (v : Z) :
  0 <= v ->
  BtlewrapRGBWInteractor._pack v
  = Returned (Py.big_endian (Z.to_nat (Py.ceil_div (Py.bit_length v) 8)) v).
Proof.
  intros Hv. unfold BtlewrapRGBWInteractor._pack, Py.to_bytes.
  destruct (Z.eq_dec v 0) as [->|Hne]; [reflexivity|].
  destruct (@num_bytes_bounds v ltac:(lia)) as (Hn & _ & Hhi).
  set (n := Py.ceil_div (Py.bit_length v) 8) in *.
  destruct (Z.ltb_spec n 0); [lia|].
  destruct (Z.ltb_spec v 0); [lia|].
  destruct (Z.leb_spec (256 ^ n) v); [lia|]. reflexivity.
Qed.

#[local] Arguments Qminus : simpl never.
#[local] Arguments Qle_bool : simpl never.

(** One turn of the retry loop, by what the backend does with the cycle. *)
Lemma attempt_spec (event : option command) (i : Z) (s : Machine) :
  attempt event i s
  = let b := next_behaviour s in
    let new := cycle_events (address (worker s)) event b in
    let start := clock (world s) (clock_reads (world s)) in
    let now := clock (world s) (S (clock_reads (world s))) in
    match cycle_raises event b with
    | None =>
        (Returned Break,
         evolve s (set_success_count (success_count (worker s) + 1) (worker s)) new 1 1)
    | Some e =>
        if transport_failure e
        then (Returned Next,
              evolve s (set_failure_count (failure_count (worker s) + 1) (worker s))
                (new ++ EvLog INFO (MsgConnectionFailed e) :: slow_log (now - start)) 2 1)
        else (Raised e, evolve s (worker s) new 1 1)
    end.
Proof.
  destruct s as [w [tr clk rd bk dl tl sp pr wt]].
  unfold attempt, next_behaviour, slow_log, evolve, bind, try_except, inW,
    with_connection, finally, write_handle, bind, gets, update, modify, ret, raise,
    log, time_time.
  cbn.
  destruct (bk dl) as [e|[e|]]; [|destruct event as [[h p]|]..]; cbn;
    try (destruct e; cbn);
    try destruct (Qle_bool _ _); normalise_state; reflexivity.
Qed.

#[local] Hint Constructors cycles : core.

Lemma since_evolve (s : Machine) (self : t) (new : list effect) (r d : nat) :
  since s (evolve s self new r d) = new.
Proof.
  unfold since, evolve; cbn.
  rewrite skipn_app, Nat.sub_diag, skipn_all. reflexivity.
Qed.

Lemma evolve_evolve (s : Machine) (w1 w2 : t) (n1 n2 : list effect) (r1 r2 d1 d2 : nat) :
  evolve (evolve s w1 n1 r1 d1) w2 n2 r2 d2
  = evolve s w2 (n1 ++ n2) (r2 + r1) (d2 + d1).
Proof.
  unfold evolve; cbn. rewrite <- app_assoc, !Nat.add_assoc. reflexivity.
Qed.

Lemma evolve_nothing (s : Machine) : evolve s (worker s) [] 0 0 = s.
Proof.
  destruct s as [w [tr clk rd bk dl tl sp pr wt]]. unfold evolve; cbn.
  rewrite app_nil_r. reflexivity.
Qed.

Lemma cycles_app (a : string) (ev : option command) (tr1 tr2 : list effect) :
  cycles a ev tr1 -> cycles a ev tr2 -> cycles a ev (tr1 ++ tr2).
Proof. induction 1; intros H2; cbn; auto. Qed.

Lemma cycles_cycle_events (a : string) (ev : option command) (b : conn_behaviour) :
  cycles a ev (cycle_events a ev b).
Proof. destruct b as [e|[e|]]; destruct ev as [[h p]|]; cbn; eauto. Qed.

Lemma cycles_slow_log (a : string) (ev : option command) (q : Q) :
  cycles a ev (slow_log q).
Proof. unfold slow_log. destruct (Qle_bool q 10); auto. Qed.

(** With no event, nothing is asked to be written in a trace of cycles. *)
Lemma cycles_keepalive_silent (a : string) (tr : list effect) :
  cycles a None tr -> write_calls tr = [].
Proof. induction 1; cbn; auto; discriminate. Qed.

(** With an event, only that event is asked to be written. *)
Lemma cycles_only_event (a : string) (c : command) (tr : list effect) :
  cycles a (Some c) tr -> Forall (eq c) (write_calls tr).
Proof.
  induction 1; cbn; auto; try discriminate;
    match goal with H : Some _ = Some _ |- _ => injection H as -> end; auto.
Qed.

Lemma written_app (tr1 tr2 : list effect) : written (tr1 ++ tr2) = written tr1 ++ written tr2.
Proof. apply flat_map_app. Qed.

Lemma warned_app (tr1 tr2 : list effect) : warned (tr1 ++ tr2) = warned tr1 ++ warned tr2.
Proof. apply flat_map_app. Qed.

Lemma written_slow_log (q : Q) : written (slow_log q) = [].
Proof. unfold slow_log. destruct (Qle_bool q 10); reflexivity. Qed.

Lemma warned_slow_log (q : Q) : warned (slow_log q) = [].
Proof. unfold slow_log. destruct (Qle_bool q 10); reflexivity. Qed.

Lemma warned_cycle_events (a : string) (ev : option command) (b : conn_behaviour) :
  warned (cycle_events a ev b) = [].
Proof. destruct b as [e|[e|]]; destruct ev as [[h p]|]; reflexivity. Qed.

(** ** The retry loop *)

Lemma behaviour_at_evolve (s : Machine) (self : t) (new : list effect) (r j : nat) :
  behaviour_at (evolve s self new r 1) j = behaviour_at s (S j).
Proof. unfold behaviour_at, evolve; cbn. rewrite Nat.add_succ_r. reflexivity. Qed.

Lemma tally_failure (w : t) (k n : Z) :
  tally (set_failure_count (failure_count w + 1) w) k n = tally w (k + 1) n.
Proof. destruct w; worker_fields. f_equal; lia. Qed.

Lemma tally_success (w : t) :
  set_success_count (success_count w + 1) w = tally w 0 1.
Proof. destruct w; worker_fields. f_equal; lia. Qed.

Lemma tally_nothing (w : t) : tally w 0 0 = w.
Proof. destruct w; worker_fields. f_equal; lia. Qed.

Lemma written_cycle_fails (a : string) (ev : option command) (b : conn_behaviour) :
  cycle_fails ev b = true -> written (cycle_events a ev b) = [].
Proof.
  unfold cycle_fails. destruct b as [e|[e|]]; destruct ev as [[h p]|]; cbn;
    intros H; try reflexivity; discriminate.
Qed.

Lemma written_cycle_succeeds (a : string) (ev : option command) (b : conn_behaviour) :
  cycle_succeeds ev b = true ->
  written (cycle_events a ev b) = match ev with Some c => [c] | None => [] end.
Proof.
  unfold cycle_succeeds. destruct b as [e|[e|]]; destruct ev as [[h p]|]; cbn;
    intros H; try reflexivity; discriminate.
Qed.

(** A turn on a cycle that fails. *)
Lemma attempt_fails (event : option command) (i : Z) (s : Machine) :
  cycle_fails event (behaviour_at s 0) = true ->
  exists new,
    attempt event i s
    = (Returned Next,
       evolve s (set_failure_count (failure_count (worker s) + 1) (worker s)) new 2 1) /\
    written new = [] /\ warned new = [] /\ cycles (address (worker s)) event new.
Proof.
  intros H. rewrite attempt_spec. change (next_behaviour s) with (behaviour_at s 0).
  cbv zeta. pose proof (written_cycle_fails (address (worker s)) _ _ H) as Hw.
  unfold cycle_fails in H.
  destruct (cycle_raises event (behaviour_at s 0)) as [e|]; [|discriminate].
  rewrite H. eexists; split; [reflexivity|].
  rewrite written_app, warned_app, Hw, warned_cycle_events. cbn.
  rewrite written_slow_log, warned_slow_log. repeat split.
  apply cycles_app; [apply cycles_cycle_events|].
  constructor. apply cycles_slow_log.
Qed.

(** A turn on a cycle that succeeds. *)
Lemma attempt_succeeds (event : option command) (i : Z) (s : Machine) :
  cycle_succeeds event (behaviour_at s 0) = true ->
  exists new,
    attempt event i s = (Returned Break, evolve s (tally (worker s) 0 1) new 1 1) /\
    written new = match event with Some c => [c] | None => [] end /\
    warned new = [] /\ cycles (address (worker s)) event new.
Proof.
  intros H. rewrite attempt_spec. change (next_behaviour s) with (behaviour_at s 0).
  cbv zeta. pose proof (written_cycle_succeeds (address (worker s)) _ _ H) as Hw.
  unfold cycle_succeeds in H.
  destruct (cycle_raises event (behaviour_at s 0)) as [e|]; [discriminate|].
  rewrite tally_success. eexists; split; [reflexivity|].
  rewrite Hw, warned_cycle_events. repeat split. apply cycles_cycle_events.
Qed.

Lemma evolve_eq (s : Machine) (w w' : t) (new new' : list effect) (r r' d d' : nat) :
  w = w' -> new = new' -> r = r' -> d = d' ->
  evolve s w new r d = evolve s w' new' r' d'.
Proof. intros; subst; reflexivity. Qed.

(** The loop on a backend that fails [k] cycles and then succeeds, with
    more than [k] attempts allowed: it stops on the success. *)
Lemma retry_until_success (event : option command) (k : nat) :
  forall (n a : nat) (last : option Z) (s : Machine),
    (k < n)%nat ->
    (forall j, (j < k)%nat -> cycle_fails event (behaviour_at s j) = true) ->
    cycle_succeeds event (behaviour_at s k) = true ->
    exists new,
      for_in (attempt event) (map Z.of_nat (seq a n)) last s
      = (Returned (Some (Z.of_nat (a + k))),
         evolve s (tally (worker s) (Z.of_nat k) 1) new (2 * k + 1) (k + 1)) /\
      written new = match event with Some c => [c] | None => [] end /\
      warned new = [] /\ cycles (address (worker s)) event new.
Proof.
  induction k as [|k IH]; intros n a last s Hn Hfail Hok;
    (destruct n as [|n]; [lia|]); cbn [seq map for_in]; unfold bind at 1.
  - destruct (attempt_succeeds event (Z.of_nat a) s Hok) as (new & -> & Hw & Hq & Hc).
    exists new. rewrite Nat.add_0_r. repeat split; assumption.
  - destruct (attempt_fails event (Z.of_nat a) s (Hfail 0%nat ltac:(lia)))
      as (new1 & -> & Hw1 & Hq1 & Hc1).
    set (s1 := evolve s _ new1 2 1).
    destruct (IH n (S a) (Some (Z.of_nat a)) s1 ltac:(lia)) as (new2 & -> & Hw2 & Hq2 & Hc2).
    + intros j Hj. unfold s1. rewrite behaviour_at_evolve. apply Hfail. lia.
    + unfold s1. rewrite behaviour_at_evolve. exact Hok.
    + exists (new1 ++ new2). unfold s1. rewrite evolve_evolve. cbn [evolve worker].
      rewrite tally_failure, written_app, warned_app, Hw1, Hw2, Hq1, Hq2.
      repeat split.
      * f_equal; [do 2 f_equal; lia|]. apply evolve_eq; try reflexivity; try lia.
        f_equal. lia.
      * apply cycles_app; assumption.
Qed.

(** The loop on a backend that fails every one of the allowed attempts. *)
Lemma retry_exhausted (event : option command) (n : nat) :
  forall (a : nat) (last : option Z) (s : Machine),
    (forall j, (j < n)%nat -> cycle_fails event (behaviour_at s j) = true) ->
    exists new,
      for_in (attempt event) (map Z.of_nat (seq a n)) last s
      = (Returned (match n with
                   | O => last
                   | S m => Some (Z.of_nat (a + m))
                   end),
         evolve s (tally (worker s) (Z.of_nat n) 0) new (2 * n) n) /\
      written new = [] /\ warned new = [] /\ cycles (address (worker s)) event new.
Proof.
  induction n as [|n IH]; intros a last s Hfail; cbn [seq map for_in].
  - exists []. unfold ret. rewrite tally_nothing, evolve_nothing.
    repeat split. constructor.
  - unfold bind at 1.
    destruct (attempt_fails event (Z.of_nat a) s (Hfail 0%nat ltac:(lia)))
      as (new1 & -> & Hw1 & Hq1 & Hc1).
    set (s1 := evolve s _ new1 2 1).
    destruct (IH (S a) (Some (Z.of_nat a)) s1) as (new2 & -> & Hw2 & Hq2 & Hc2).
    + intros j Hj. unfold s1. rewrite behaviour_at_evolve. apply Hfail. lia.
    + exists (new1 ++ new2). unfold s1. rewrite evolve_evolve. cbn [evolve worker].
      rewrite tally_failure, written_app, warned_app, Hw1, Hw2, Hq1, Hq2.
      repeat split.
      * f_equal.
        -- destruct n as [|m]; [rewrite Nat.add_0_r; reflexivity|].
           do 2 f_equal. lia.
        -- apply evolve_eq; try reflexivity; try lia. f_equal. lia.
      * apply cycles_app; assumption.
Qed.

Lemma log_evolve (s : Machine) (w : t) (new : list effect) (r d : nat)
      (lvl : level) (m : message) :
  inW (log lvl m) (evolve s w new r d)
  = (Returned tt, evolve s w (new ++ [EvLog lvl m]) r d).
Proof. unfold inW, log, modify, evolve; normalise_state. reflexivity. Qed.

Lemma after_loop (s s' : Machine) (w : t) (new : list effect) (r d : nat) (i : Z) :
  (if 10 <? i
   then inW (log WARNING (MsgTookAttempts (address (worker s')) (i + 1)))
   else ret tt) (evolve s w new r d)
  = (Returned tt,
     evolve s w (new ++ attempts_warning (address (worker s')) (i + 1)) r d).
Proof.
  unfold attempts_warning. replace (i + 1 - 1) with i by lia.
  destruct (10 <? i).
  - apply log_evolve.
  - unfold ret. rewrite app_nil_r. reflexivity.
Qed.

Lemma warned_attempts_warning (a : string) (made : Z) :
  warned (attempts_warning a made) = if 11 <? made then [(a, made)] else [].
Proof.
  unfold attempts_warning.
  destruct (Z.ltb_spec 10 (made - 1)); destruct (Z.ltb_spec 11 made);
    try lia; reflexivity.
Qed.

Lemma cycles_attempts_warning (a b : string) (ev : option command) (made : Z) :
  cycles a ev (attempts_warning b made).
Proof. unfold attempts_warning. destruct (10 <? made - 1); auto. Qed.

Lemma written_attempts_warning (a : string) (made : Z) :
  written (attempts_warning a made) = [].
Proof. unfold attempts_warning. destruct (10 <? made - 1); reflexivity. Qed.

(** [write] when the backend fails [k] cycles and then succeeds, with more
    than [k] attempts allowed. *)
Lemma write_until_success (event : option command) (k : nat) (s : Machine) :
  (Z.of_nat k < attempts (worker s)) ->
  (forall j, (j < k)%nat -> cycle_fails event (behaviour_at s j) = true) ->
  cycle_succeeds event (behaviour_at s k) = true ->
  exists new,
    write event s
    = (Returned tt, evolve s (tally (worker s) (Z.of_nat k) 1) new (2 * k + 1) (k + 1)) /\
    written new = match event with Some c => [c] | None => [] end /\
    warned new = (if 11 <? Z.of_nat k + 1
                  then [(address (worker s), Z.of_nat k + 1)] else []) /\
    cycles (address (worker s)) event new.
Proof.
  intros Hk Hfail Hok. unfold write, bind at 1, gets. unfold bind at 1, Py.range.
  destruct (@retry_until_success event k (Z.to_nat (attempts (worker s))) 0 None s
              ltac:(lia) Hfail Hok) as (new & -> & Hw & Hq & Hc).
  cbn [Nat.add]. rewrite (after_loop s s).
  eexists; split; [reflexivity|].
  rewrite written_app, warned_app, Hw, Hq, written_attempts_warning,
    warned_attempts_warning, app_nil_r. repeat split.
  apply cycles_app; [assumption|apply cycles_attempts_warning].
Qed.

(** [write] when the backend fails every one of the allowed attempts. *)
Lemma write_exhausted (event : option command) (s : Machine) :
  1 <= attempts (worker s) ->
  (forall j, (j < Z.to_nat (attempts (worker s)))%nat ->
             cycle_fails event (behaviour_at s j) = true) ->
  exists new,
    write event s
    = (Returned tt,
       evolve s (tally (worker s) (attempts (worker s)) 0) new
         (2 * Z.to_nat (attempts (worker s))) (Z.to_nat (attempts (worker s)))) /\
    written new = [] /\
    warned new = (if 11 <? attempts (worker s)
                  then [(address (worker s), attempts (worker s))] else []) /\
    cycles (address (worker s)) event new.
Proof.
  intros Hn Hfail. unfold write, bind at 1, gets. unfold bind at 1, Py.range.
  destruct (@retry_exhausted event (Z.to_nat (attempts (worker s))) 0 None s Hfail)
    as (new & -> & Hw & Hq & Hc).
  destruct (Z.to_nat (attempts (worker s))) as [|m] eqn:E; [lia|].
  cbn [Nat.add]. rewrite (after_loop s s).
  replace (Z.of_nat m + 1) with (attempts (worker s)) by lia.
  replace (Z.of_nat (S m)) with (attempts (worker s)) by lia.
  eexists; split; [reflexivity|].
  rewrite written_app, warned_app, Hw, Hq, written_attempts_warning,
    warned_attempts_warning. repeat split.
  apply cycles_app; [assumption|apply cycles_attempts_warning].
Qed.

(** [write] when no attempt is allowed: the loop variable is read unbound. *)
Lemma write_unbound (event : option command) (s : Machine) :
  attempts (worker s) <= 0 ->
  write event s = (Raised (UnboundLocalError "i"), s).
Proof.
  intros Hn. unfold write, bind, gets, Py.range.
  replace (Z.to_nat (attempts (worker s))) with 0%nat by lia. reflexivity.
Qed.

(** A backend that keeps its contract fails every allowed cycle, or fails
    some and then succeeds. *)
Lemma contract_cases (event : option command) (s : Machine) (n : nat) :
  honours_contract event s n ->
  (forall j, (j < n)%nat -> cycle_fails event (behaviour_at s j) = true) \/
  (exists k, (k < n)%nat /\
             (forall j, (j < k)%nat -> cycle_fails event (behaviour_at s j) = true) /\
             cycle_succeeds event (behaviour_at s k) = true).
Proof.
  unfold honours_contract. induction n as [|n IH]; intros H.
  - left. intros j Hj. lia.
  - destruct IH as [Hall|(k & Hk & Hbefore & Hok)].
    + intros j Hj. apply H. lia.
    + specialize (H n ltac:(lia)).
      destruct (cycle_succeeds event (behaviour_at s n)) eqn:E.
      * right. exists n. repeat split; [lia|assumption|exact E].
      * left. intros j Hj. destruct (Nat.eq_dec j n) as [->|Hne].
        -- exact H.
        -- apply Hall. lia.
    + right. exists k. repeat split; [lia|assumption..].
Qed.

Lemma same_settings_refl (w : t) : same_settings w w.
Proof. repeat split. Qed.

Lemma same_settings_trans (w1 w2 w3 : t) :
  same_settings w1 w2 -> same_settings w2 w3 -> same_settings w1 w3.
Proof. unfold same_settings. intuition congruence. Qed.

Lemma same_settings_failure (w : t) (n : Z) : same_settings w (set_failure_count n w).
Proof. repeat split. Qed.

Lemma same_settings_success (w : t) (n : Z) : same_settings w (set_success_count n w).
Proof. repeat split. Qed.

(** The retry loop on any backend whatever: it leaves whole connection cycles
    in the trace, logs no warning, and ends by a return or by an exception
    of the backend that is not the one [write] catches. *)
Lemma retry_any (event : option command) (idxs : list Z) :
  forall (last : option Z) (s : Machine),
  exists r w' new rd d,
    for_in (attempt event) idxs last s = (r, evolve s w' new rd d) /\
    same_settings (worker s) w' /\
    cycles (address (worker s)) event new /\ warned new = [] /\
    match r with
    | Returned o => (idxs = [] /\ o = last) \/ (idxs <> [] /\ exists i, o = Some i)
    | Raised e => exists j, cycle_raises event (behaviour_at s j) = Some e /\
                            transport_failure e = false
    | Blocked => False
    end.
Proof.
  induction idxs as [|i idxs IH]; intros last s; cbn [for_in].
  - exists (Returned last), (worker s), [], 0%nat, 0%nat. unfold ret.
    rewrite evolve_nothing. repeat split; auto using same_settings_refl.
  - unfold bind at 1. rewrite attempt_spec. cbv zeta.
    change (next_behaviour s) with (behaviour_at s 0).
    destruct (cycle_raises event (behaviour_at s 0)) as [e|] eqn:E;
      [destruct (transport_failure e) eqn:T|].
    + set (s1 := evolve s _ _ 2 1).
      destruct (IH (Some i) s1) as (r & w' & new & rd & d & -> & Hs & Hc & Hq & Hr).
      exists r, w'. eexists; exists (rd + 2)%nat, (d + 1)%nat.
      unfold s1. rewrite evolve_evolve. split; [reflexivity|].
      unfold s1 in Hs, Hc, Hr. cbn [evolve worker] in Hs, Hc.
      rewrite !warned_app, warned_cycle_events. cbn. rewrite warned_slow_log, Hq.
      split; [|split; [|split; [reflexivity|]]].
      * eapply same_settings_trans; [apply same_settings_failure|exact Hs].
      * apply cycles_app; [|exact Hc].
        apply cycles_app; [apply cycles_cycle_events|].
        constructor. apply cycles_slow_log.
      * destruct r as [o|e'|]; [|destruct Hr as (j & Hj & Ht)|exact Hr].
        -- right. split; [discriminate|].
           destruct Hr as [(_ & ->)|(_ & Hi)]; eauto.
        -- exists (S j). rewrite behaviour_at_evolve in Hj. auto.
    + do 5 eexists. split; [reflexivity|].
      repeat split; auto using cycles_cycle_events, warned_cycle_events.
      exists 0%nat. auto.
    + do 5 eexists. split; [reflexivity|].
      split; [apply same_settings_success|].
      split; [apply cycles_cycle_events|].
      split; [apply warned_cycle_events|].
      right. split; [discriminate|eauto].
Qed.

(** [write] on any backend whatever. *)
Lemma write_any (event : option command) (s : Machine) :
  exists r w' new rd d,
    write event s = (r, evolve s w' new rd d) /\
    same_settings (worker s) w' /\
    cycles (address (worker s)) event new /\
    match r with
    | Returned _ => 1 <= attempts (worker s)
    | Raised e =>
        (attempts (worker s) <= 0 /\ e = UnboundLocalError "i") \/
        (exists j, cycle_raises event (behaviour_at s j) = Some e /\
                   transport_failure e = false)
    | Blocked => False
    end.
Proof.
  unfold write, bind at 1, gets. unfold bind at 1.
  destruct (retry_any event (Py.range (attempts (worker s))) None s)
    as (r & w' & new & rd & d & -> & Hs & Hc & Hq & Hr).
  destruct r as [[i|]|e|].
  - rewrite (after_loop s s). do 5 eexists. split; [reflexivity|].
    split; [exact Hs|]. split.
    + apply cycles_app; [exact Hc|apply cycles_attempts_warning].
    + destruct Hr as [(_ & Hn)|(Hne & _)]; [discriminate|].
      unfold Py.range in Hne.
      destruct (Z.to_nat (attempts (worker s))) eqn:E; [|lia].
      exfalso. apply Hne. reflexivity.
  - exists (Raised (UnboundLocalError "i")), w', new, rd, d.
    split; [reflexivity|]. split; [exact Hs|]. split; [exact Hc|].
    left. split; [|reflexivity].
    destruct Hr as [(Hnil & _)|(_ & i & Hi)]; [|discriminate].
    unfold Py.range in Hnil.
    destruct (Z.to_nat (attempts (worker s))) eqn:E; [lia|].
    cbn in Hnil. discriminate.
  - exists (Raised e), w', new, rd, d.
    split; [reflexivity|]. split; [exact Hs|]. split; [exact Hc|]. right. exact Hr.
  - contradiction.
Qed.

(** ** The command encoder *)

Lemma shiftl_byte_in_mask (v o : Z) :
  0 <= v < 2 ^ 8 -> 0 <= o ->
  Z.land (Z.shiftl v o) (Z.shiftl (Z.ones 8) o) = Z.shiftl v o.
Proof.
  intros Hv Ho. rewrite <- Z.shiftl_land, Z.land_ones by lia.
  rewrite Z.mod_small by lia. reflexivity.
Qed.

(** A byte shifted to offset [o] meets no bit of [base] when [base] is clear
    on the eight bits from [o]. *)
Lemma byte_field_disjoint (base v o : Z) :
  0 <= v < 2 ^ 8 -> 0 <= o ->
  Z.land base (Z.shiftl (Z.ones 8) o) = 0 ->
  Z.land base (Z.shiftl v o) = 0.
Proof.
  intros Hv Ho Hclear.
  rewrite <- (shiftl_byte_in_mask Hv Ho), (Z.land_comm (Z.shiftl v o)), Z.land_assoc,
    Hclear.
  apply Z.land_0_l.
Qed.

(** C6: for r, g, b, w in [0, 255], [set_color(r, g, b)] hands [_write] the
    integer [0x5600000000f0aa + (r << 40) + (g << 32) + (b << 24)], from which
    subtracting the base and shifting back by 40, 32 and 24 recovers r, g and
    b; [set_white(w)] hands it [0x56000000000faa + (w << 16)], from which w is
    recovered the same way; no field meets a set bit of its base constant. *)
Theorem set_color_set_white_round_trip
    (I S : Type) (interactor : RGBWInteractor.Interface I S) (self : I) (r g b w : Z) :
  0 <= r <= 255 -> 0 <= g <= 255 -> 0 <= b <= 255 -> 0 <= w <= 255 ->
  let rgb := 0x5600000000f0aa + Z.shiftl r 40 + Z.shiftl g 32 + Z.shiftl b 24 in
  let white := 0x56000000000faa + Z.shiftl w 16 in
  RGBWInteractor.set_color self [r; g; b] = RGBWInteractor._write self rgb /\
  Z.shiftr (rgb - RGBWInteractor.rgb_base) 40 = r /\
  Z.land (Z.shiftr (rgb - RGBWInteractor.rgb_base) 32) 0xff = g /\
  Z.land (Z.shiftr (rgb - RGBWInteractor.rgb_base) 24) 0xff = b /\
  Z.land RGBWInteractor.rgb_base (Z.shiftl r 40) = 0 /\
  Z.land RGBWInteractor.rgb_base (Z.shiftl g 32) = 0 /\
  Z.land RGBWInteractor.rgb_base (Z.shiftl b 24) = 0 /\
  RGBWInteractor.set_white self w = RGBWInteractor._write self white /\
  Z.shiftr (white - RGBWInteractor.white_base) 16 = w /\
  Z.land RGBWInteractor.white_base (Z.shiftl w 16) = 0.
Proof.
  intros Hr Hg Hb Hw rgb white.
  assert (Hrgb : rgb - RGBWInteractor.rgb_base
                 = r * 2 ^ 40 + g * 2 ^ 32 + b * 2 ^ 24).
  { subst rgb. unfold RGBWInteractor.rgb_base. rewrite !Z.shiftl_mul_pow2 by lia. lia. }
  assert (Hwhite : white - RGBWInteractor.white_base = w * 2 ^ 16).
  { subst white. unfold RGBWInteractor.white_base. rewrite !Z.shiftl_mul_pow2 by lia. lia. }
  rewrite Hrgb, Hwhite.
  change 0xff with (Z.ones 8). rewrite !Z.land_ones, !Z.shiftr_div_pow2 by lia.
  repeat split.
  - unfold RGBWInteractor.set_color. f_equal. subst rgb.
    unfold RGBWInteractor.rgb_base. cbn [Py.zip combine RGBWInteractor.rgb_offsets map fst snd].
    unfold Py.sum. cbn [fold_left]. change (5 * 8) with 40. change (4 * 8) with 32.
    change (3 * 8) with 24. lia.
  - change (2 ^ 40) with 1099511627776; change (2 ^ 32) with 4294967296;
      change (2 ^ 24) with 16777216. Z.div_mod_to_equations. lia.
  - change (2 ^ 40) with 1099511627776; change (2 ^ 32) with 4294967296;
      change (2 ^ 24) with 16777216; change (2 ^ 8) with 256.
    Z.div_mod_to_equations. lia.
  - change (2 ^ 40) with 1099511627776; change (2 ^ 32) with 4294967296;
      change (2 ^ 24) with 16777216; change (2 ^ 8) with 256.
    Z.div_mod_to_equations. lia.
  - apply byte_field_disjoint; [change (2 ^ 8) with 256; lia|lia|reflexivity].
  - apply byte_field_disjoint; [change (2 ^ 8) with 256; lia|lia|reflexivity].
  - apply byte_field_disjoint; [change (2 ^ 8) with 256; lia|lia|reflexivity].
  - change (2 ^ 16) with 65536. Z.div_mod_to_equations. lia.
  - apply byte_field_disjoint; [change (2 ^ 8) with 256; lia|lia|reflexivity].
Qed.

(** C7: for a positive value, [_pack] returns the big-endian bytes of the
    value, as many as [ceil(bit_length / 8)], the first of them not zero (no
    leading zero byte, no sign byte); [_pack(0x1)] is the one byte [0x01] and
    [_pack(0x5600000000f0aa)] is seven bytes starting with [0x56]. *)
Theorem pack_minimal_big_endian :
  (forall value : Z,
     0 < value ->
     exists first rest,
       BtlewrapRGBWInteractor._pack value = Returned (first :: rest) /\
       Z.of_nat (List.length (first :: rest)) = Py.ceil_div (Py.bit_length value) 8 /\
       Py.from_bytes (first :: rest) = value /\
       first <> x00) /\
  BtlewrapRGBWInteractor._pack 0x1 = Returned [x01] /\
  BtlewrapRGBWInteractor._pack 0x5600000000f0aa
  = Returned [x56; x00; x00; x00; x00; xf0; xaa].
Proof.
  split; [|split; reflexivity].
  intros value Hv. rewrite pack_nonneg by lia.
  destruct (num_bytes_bounds Hv) as (Hn & Hlo & Hhi).
  set (n := Py.ceil_div (Py.bit_length value) 8) in *.
  destruct (Z.to_nat n) as [|m] eqn:E; [lia|].
  assert (Hm : Z.of_nat m = n - 1) by lia.
  rewrite big_endian_head. do 2 eexists. split; [reflexivity|].
  split; [|split].
  - cbn [List.length]. rewrite big_endian_length. lia.
  - rewrite <- big_endian_head, from_bytes_big_endian by lia.
    apply Z.mod_small. replace (Z.of_nat (S m)) with n by lia. lia.
  - apply byte_of_Z_nonzero. rewrite Hm.
    assert (Hpos : 0 < 256 ^ (n - 1)) by (apply Z.pow_pos_nonneg; lia).
    assert (Hq : 1 <= value / 256 ^ (n - 1) < 256).
    { split.
      - apply Z.div_le_lower_bound; lia.
      - apply Z.div_lt_upper_bound; [lia|].
        replace (256 ^ (n - 1) * 256) with (256 ^ n); [lia|].
        replace n with (Z.succ (n - 1)) at 1 by lia.
        rewrite Z.pow_succ_r by lia. ring. }
    rewrite Z.mod_mod by lia. rewrite Z.mod_small; lia.
Qed.

(** A positive value to pack: [set_on]'s constant. *)
Lemma pack_minimal_big_endian_witness :
  exists first rest,
    BtlewrapRGBWInteractor._pack 0xcc2333 = Returned (first :: rest) /\
    Z.of_nat (List.length (first :: rest)) = Py.ceil_div (Py.bit_length 0xcc2333) 8 /\
    Py.from_bytes (first :: rest) = 0xcc2333 /\
    first <> x00.
Proof. apply (proj1 pack_minimal_big_endian 0xcc2333). reflexivity. Defined.

(** The persistent writer on an unbounded inbox, when the value packs. *)
Lemma persistent_write_spec (self : BtlewrapRGBWInteractor.t) (value : Z) (s : Machine)
      (packed : bytes) :
  maxsize (queue (worker s)) <= 0 ->
  BtlewrapRGBWInteractor._pack value = Returned packed ->
  BtlewrapRGBWInteractor._write self value s
  = (Returned tt,
     evolve s
       (set_queue {| maxsize := maxsize (queue (worker s));
                     items := items (queue (worker s))
                              ++ [(RGBWInteractor.control_handle, packed)] |}
                  (worker s))
       ((if alive (worker s) then []
         else [EvLog ERROR (MsgWorkerNotAlive (BtlewrapRGBWInteractor.address self))])
        ++ [EvLog INFO (MsgSubmitting (BtlewrapRGBWInteractor.address self)
                          (qsize (queue (worker s))));
            EvLog INFO (MsgWorkerStats (BtlewrapRGBWInteractor.address self)
                          (loop_count (worker s)) (failure_count (worker s)))])
       0 0).
Proof.
  intros Hmax Hpack.
  assert (Hunbounded : (0 <? maxsize (queue (worker s))) = false) by (apply Z.ltb_ge; lia).
  destruct s as [w [tr clk rd bk dl tl sp pr wt]].
  unfold BtlewrapRGBWInteractor._write, evolve, bind, gets, inW, log, modify, ret, call,
    queue_put, update, modify.
  cbn [worker world] in *. rewrite Hpack. cbn [worker world].
  destruct (alive w); cbn [negb worker world]; rewrite Hunbounded;
    normalise_state; reflexivity.
Qed.

(** ** The persistent writer *)

(** C9: [_pack(0)] is the empty byte string, since [bit_length(0) = 0]; hence
    writing 0 through the persistent writer puts in the inbox a command whose
    payload is empty. *)
Theorem pack_zero_is_empty (self : BtlewrapRGBWInteractor.t) (s : Machine) :
  maxsize (queue (worker s)) <= 0 ->
  Py.bit_length 0 = 0 /\
  BtlewrapRGBWInteractor._pack 0 = Returned [] /\
  fst (BtlewrapRGBWInteractor._write self 0 s) = Returned tt /\
  items (queue (worker (snd (BtlewrapRGBWInteractor._write self 0 s))))
  = items (queue (worker s)) ++ [(0x0007, [])].
Proof.
  intros Hmax. rewrite (@persistent_write_spec self 0 s [] Hmax eq_refl).
  repeat split.
Qed.

(** The inbox of a fresh worker is unbounded. *)
Lemma pack_zero_is_empty_witness :
  BtlewrapRGBWInteractor._pack 0 = Returned [] /\
  items (queue (worker (snd (BtlewrapRGBWInteractor._write sample_interactor 0
                               (sample_machine 100 always_fails quiet)))))
  = [(0x0007, [])].
Proof.
  pose proof (@pack_zero_is_empty sample_interactor
                (sample_machine 100 always_fails quiet) ltac:(cbn; lia))
    as (_ & Hpack & _ & Hitems).
  split; [exact Hpack|exact Hitems].
Defined.

(** C5, as the code has it: for a value that is not negative, [_write] on a
    worker whose thread is dead logs one error, packs the value and puts
    [(handle, bytes)] in the inbox exactly as it does when the thread is
    alive, and returns: it neither waits nor raises. *)
Theorem write_to_dead_worker_still_enqueues
    (self : BtlewrapRGBWInteractor.t) (value : Z) (s : Machine) :
  0 <= value ->
  maxsize (queue (worker s)) <= 0 ->
  alive (worker s) = false ->
  let live := {| worker := set_alive true (worker s); world := world s |} in
  let s' := snd (BtlewrapRGBWInteractor._write self value s) in
  let live' := snd (BtlewrapRGBWInteractor._write self value live) in
  exists packed,
    BtlewrapRGBWInteractor._pack value = Returned packed /\
    fst (BtlewrapRGBWInteractor._write self value s) = Returned tt /\
    errors (since s s') = [MsgWorkerNotAlive (BtlewrapRGBWInteractor.address self)] /\
    items (queue (worker s'))
    = items (queue (worker s)) ++ [(RGBWInteractor.control_handle, packed)] /\
    queue (worker s') = queue (worker live') /\
    errors (since live live') = [].
Proof.
  intros Hv Hmax Hdead live s' live'.
  exists (Py.big_endian (Z.to_nat (Py.ceil_div (Py.bit_length value) 8)) value).
  pose proof (pack_nonneg Hv) as Hpack.
  subst s' live'.
  rewrite (@persistent_write_spec self value s _ Hmax Hpack).
  rewrite (@persistent_write_spec self value live _ Hmax Hpack).
  cbn [fst snd]. rewrite !since_evolve. cbn [evolve worker]. subst live. cbn [worker].
  rewrite Hdead. cbn [alive set_alive]. repeat split; try reflexivity. exact Hpack.
Qed.

(** [set_off]'s constant, sent to a worker whose thread has died. *)
Lemma write_to_dead_worker_still_enqueues_witness :
  exists packed,
    BtlewrapRGBWInteractor._pack 0xcc2433 = Returned packed /\
    fst (BtlewrapRGBWInteractor._write sample_interactor 0xcc2433
           (dead (sample_machine 100 always_fails quiet))) = Returned tt /\
    items (queue (worker (snd (BtlewrapRGBWInteractor._write sample_interactor 0xcc2433
                                 (dead (sample_machine 100 always_fails quiet))))))
    = [(RGBWInteractor.control_handle, packed)].
Proof.
  destruct (@write_to_dead_worker_still_enqueues sample_interactor 0xcc2433
              (dead (sample_machine 100 always_fails quiet))
              ltac:(lia) ltac:(cbn; lia) eq_refl)
    as (packed & Hpack & Hret & _ & Hitems & _).
  exists packed. repeat split; assumption.
Defined.

(** C5 as stated fails on a negative value: [to_bytes] refuses it, so
    [_write] raises and puts nothing in the inbox. *)
Lemma write_negative_to_dead_worker_raises :
  fst (BtlewrapRGBWInteractor._write sample_interactor (-1)
         (dead (sample_machine 100 always_fails quiet)))
  = Raised (OverflowError "can't convert negative int to unsigned") /\
  items (queue (worker (snd (BtlewrapRGBWInteractor._write sample_interactor (-1)
                               (dead (sample_machine 100 always_fails quiet))))))
  = [].
Proof. split; reflexivity. Qed.

(** ** The worker's [write] *)

(** C1: with three attempts allowed and a backend whose cycle fails twice
    and succeeds the third time, one [write] of a command returns, having
    applied the command exactly once, added one to [success_count] and two to
    [failure_count], and asked the backend for three connections and no more. *)
Theorem write_succeeds_on_third_attempt (c : command) (s : Machine) :
  attempts (worker s) = 3 ->
  cycle_fails (Some c) (behaviour_at s 0) = true ->
  cycle_fails (Some c) (behaviour_at s 1) = true ->
  cycle_succeeds (Some c) (behaviour_at s 2) = true ->
  let s' := snd (write (Some c) s) in
  fst (write (Some c) s) = Returned tt /\
  written (since s s') = [c] /\
  success_count (worker s') = success_count (worker s) + 1 /\
  failure_count (worker s') = failure_count (worker s) + 2 /\
  dials (world s') = (3 + dials (world s))%nat.
Proof.
  intros Hn H0 H1 H2 s'. subst s'.
  destruct (@write_until_success (Some c) 2 s) as (new & -> & Hw & _).
  - lia.
  - intros j Hj. destruct j as [|[|j]]; [assumption..|lia].
  - assumption.
  - cbn [fst snd]. rewrite since_evolve. repeat split. exact Hw.
Qed.

(** Two refused connections, then an accepted one. *)
Lemma write_succeeds_on_third_attempt_witness :
  let s := sample_machine 3 (fails_then_succeeds 2) quiet in
  let s' := snd (write (Some sample_command) s) in
  fst (write (Some sample_command) s) = Returned tt /\
  written (since s s') = [sample_command] /\
  success_count (worker s') = 1 /\
  failure_count (worker s') = 2 /\
  dials (world s') = 3%nat.
Proof.
  exact (@write_succeeds_on_third_attempt sample_command
           (sample_machine 3 (fails_then_succeeds 2) quiet)
           eq_refl eq_refl eq_refl eq_refl).
Defined.

(** C2: with three attempts allowed and a backend whose every cycle fails
    with its own exception, one [write] makes exactly three attempts and
    returns: no exception escapes, [success_count] is unchanged,
    [failure_count] grows by three, nothing is written to the peripheral and
    the inbox is left as it was (the item is not put back). *)
Theorem write_gives_up_after_three_failures (event : option command) (s : Machine) :
  attempts (worker s) = 3 ->
  (forall j, cycle_fails event (behaviour_at s j) = true) ->
  let s' := snd (write event s) in
  fst (write event s) = Returned tt /\
  dials (world s') = (3 + dials (world s))%nat /\
  success_count (worker s') = success_count (worker s) /\
  failure_count (worker s') = failure_count (worker s) + 3 /\
  written (since s s') = [] /\
  queue (worker s') = queue (worker s).
Proof.
  intros Hn Hfail s'. subst s'.
  destruct (@write_exhausted event s) as (new & -> & Hw & _).
  - lia.
  - intros j _. apply Hfail.
  - cbn [fst snd]. rewrite since_evolve, Hn. cbn. repeat split; try lia. exact Hw.
Qed.

(** A backend that refuses every connection. *)
Lemma write_gives_up_after_three_failures_witness :
  let s := sample_machine 3 always_fails quiet in
  let s' := snd (write (Some sample_command) s) in
  fst (write (Some sample_command) s) = Returned tt /\
  dials (world s') = 3%nat /\
  success_count (worker s') = 0 /\
  failure_count (worker s') = 3 /\
  written (since s s') = [] /\
  queue (worker s') = queue (worker s).
Proof.
  exact (@write_gives_up_after_three_failures (Some sample_command)
           (sample_machine 3 always_fails quiet) eq_refl (fun _ => eq_refl)).
Defined.

(** C4, as the code has it: for a [write] with at least one attempt allowed,
    on a backend that fails only with its own exception, the warning naming
    the address and the attempt count is logged if and only if the number of
    attempts made exceeds 11 (the index of the last attempt exceeds 10), and
    the count it names is the number of attempts made. *)
Theorem warning_after_more_than_eleven_attempts (event : option command) (s : Machine) :
  1 <= attempts (worker s) ->
  honours_contract event s (Z.to_nat (attempts (worker s))) ->
  let s' := snd (write event s) in
  let made := Z.of_nat (dials (world s') - dials (world s)) in
  fst (write event s) = Returned tt /\
  1 <= made <= attempts (worker s) /\
  warned (since s s') = if 11 <? made then [(address (worker s), made)] else [].
Proof.
  intros Hn Hcontract s' made. subst made s'.
  destruct (contract_cases Hcontract) as [Hall|(k & Hk & Hbefore & Hok)].
  - destruct (@write_exhausted event s Hn Hall) as (new & -> & _ & Hq & _).
    cbn [fst snd]. rewrite since_evolve, Hq. cbn [evolve world dials].
    rewrite Nat.add_sub, Z2Nat.id by lia. repeat split; lia.
  - destruct (@write_until_success event k s ltac:(lia) Hbefore Hok)
      as (new & -> & _ & Hq & _).
    cbn [fst snd]. rewrite since_evolve, Hq. cbn [evolve world dials].
    rewrite Nat.add_sub.
    replace (Z.of_nat (k + 1)) with (Z.of_nat k + 1) by lia. repeat split; lia.
Qed.

(** Twelve attempts: eleven refused connections, then an accepted one. *)
Lemma warning_after_more_than_eleven_attempts_witness :
  let s := sample_machine 100 (fails_then_succeeds 11) quiet in
  let s' := snd (write (Some sample_command) s) in
  let made := Z.of_nat (dials (world s') - dials (world s)) in
  fst (write (Some sample_command) s) = Returned tt /\
  1 <= made <= attempts (worker s) /\
  warned (since s s') = if 11 <? made then [(address (worker s), made)] else [].
Proof.
  refine (@warning_after_more_than_eleven_attempts (Some sample_command)
            (sample_machine 100 (fails_then_succeeds 11) quiet) _ _).
  - cbn. lia.
  - intros j _. unfold behaviour_at, fails_then_succeeds. cbn.
    match goal with |- context [if ?b then _ else _] => destruct b end; reflexivity.
Defined.

Example twelve_attempts_warn :
  let s := sample_machine 100 (fails_then_succeeds 11) quiet in
  let s' := snd (write (Some sample_command) s) in
  dials (world s') = 12%nat /\ warned (since s s') = [(sample_address, 12)].
Proof. vm_compute. split; reflexivity. Qed.

(** C4 as stated fails on an item that takes exactly eleven attempts: the
    loop index is then 10, which does not exceed 10, and nothing is warned. *)
Lemma eleven_attempts_no_warning :
  let s := sample_machine 100 (fails_then_succeeds 10) quiet in
  let s' := snd (write (Some sample_command) s) in
  fst (write (Some sample_command) s) = Returned tt /\
  dials (world s') = 11%nat /\
  failure_count (worker s') = 10 /\
  success_count (worker s') = 1 /\
  warned (since s s') = [].
Proof. vm_compute. repeat split. Qed.

(** C10: with no attempt allowed, [write] raises on the unbound loop variable
    before doing anything; with at least one attempt allowed the variable is
    bound, so [write] returns on a backend that fails only with its own
    exception, never waits, and raises nothing but what the backend raised. *)
Theorem write_needs_one_attempt (event : option command) (s : Machine) :
  (attempts (worker s) = 0 ->
   write event s = (Raised (UnboundLocalError "i"), s)) /\
  (1 <= attempts (worker s) ->
   (honours_contract event s (Z.to_nat (attempts (worker s))) ->
    fst (write event s) = Returned tt) /\
   fst (write event s) <> Blocked /\
   (forall e, fst (write event s) = Raised e ->
              exists j, cycle_raises event (behaviour_at s j) = Some e /\
                        transport_failure e = false)).
Proof.
  split.
  - intros Hn. apply write_unbound. lia.
  - intros Hn. split; [|split].
    + intros Hcontract.
      apply (@warning_after_more_than_eleven_attempts event s Hn Hcontract).
    + destruct (write_any event s) as (r & w' & new & rd & d & -> & _ & _ & Hr).
      cbn [fst]. destruct r; [discriminate..|contradiction].
    + intros e He.
      destruct (write_any event s) as (r & w' & new & rd & d & Hw & _ & _ & Hr).
      rewrite Hw in He. cbn [fst] in He. subst r.
      destruct Hr as [(H0 & _)|Hj]; [lia|exact Hj].
Qed.

(** ** The worker's main loop *)

(** A turn of [run] is the poll of the inbox followed by [write]. *)
Lemma run_iteration_spec (s : Machine) :
  Qle_bool 0 (keepalive_interval (worker s)) = true ->
  run_iteration s = write (fst (after_poll s)) (snd (after_poll s)).
Proof.
  intros Hk. destruct s as [w [tr clk rd bk dl tl sp pr wt]].
  unfold run_iteration, after_poll, bind, update, modify, gets, try_except, queue_get, ret.
  cbn -[write] in *.
  rewrite Hk. cbn -[write].
  destruct (items (queue w) ++ pr wt) as [|item rest]; reflexivity.
Qed.

(** What the wait on the inbox of [run] answers, read on the machine. *)
Lemma queue_get_timeout (s : Machine) :
  fst (queue_get (keepalive_interval (worker s)) s) = Raised Empty ->
  Qle_bool 0 (keepalive_interval (worker s)) = true /\
  items (queue (worker s)) ++ producers (world s) (waits (world s)) = [].
Proof.
  unfold queue_get. destruct (Qle_bool 0 (keepalive_interval (worker s))).
  - destruct (items (queue (worker s)) ++ producers (world s) (waits (world s)));
      [auto|discriminate].
  - discriminate.
Qed.

Lemma queue_get_item (s : Machine) (item : command) :
  fst (queue_get (keepalive_interval (worker s)) s) = Returned item ->
  Qle_bool 0 (keepalive_interval (worker s)) = true /\
  exists rest,
    items (queue (worker s)) ++ producers (world s) (waits (world s)) = item :: rest.
Proof.
  unfold queue_get. destruct (Qle_bool 0 (keepalive_interval (worker s))).
  - destruct (items (queue (worker s)) ++ producers (world s) (waits (world s)))
      as [|c rest]; [discriminate|].
    cbn [fst]. intros H. injection H as ->. eauto.
  - discriminate.
Qed.

Lemma since_same_trace (s s0 s' : Machine) :
  trace (world s0) = trace (world s) -> since s s' = since s0 s'.
Proof. unfold since. intros ->. reflexivity. Qed.

(** [write] when the first cycle succeeds: one cycle, and nothing else. *)
Lemma write_first_try (event : option command) (s : Machine) :
  1 <= attempts (worker s) ->
  cycle_succeeds event (behaviour_at s 0) = true ->
  write event s
  = (Returned tt,
     evolve s (tally (worker s) 0 1)
       (cycle_events (address (worker s)) event (behaviour_at s 0)) 1 1).
Proof.
  intros Hn Hok. unfold write, bind at 1, gets. unfold bind at 1, Py.range.
  destruct (Z.to_nat (attempts (worker s))) as [|m] eqn:E; [lia|].
  cbn [seq map for_in]. unfold bind at 1. rewrite attempt_spec. cbv zeta.
  change (next_behaviour s) with (behaviour_at s 0).
  unfold cycle_succeeds in Hok.
  destruct (cycle_raises event (behaviour_at s 0)); [discriminate|].
  unfold ret. cbn [Z.of_nat Z.ltb Z.compare]. rewrite tally_success. reflexivity.
Qed.

(** What [write] leaves in the trace and in [empty_count], on any backend. *)
Lemma write_leaves_cycles (event : option command) (s0 : Machine) :
  empty_count (worker (snd (write event s0))) = empty_count (worker s0) /\
  cycles (address (worker s0)) event (since s0 (snd (write event s0))).
Proof.
  destruct (write_any event s0) as (r & w' & new & rd & d & -> & Hs & Hc & _).
  cbn [snd]. rewrite since_evolve. split; [apply Hs|exact Hc].
Qed.

(** A turn of the main loop on any backend, and on one that accepts the
    first connection: if the wait on the inbox times out with the queue
    empty, [empty_count] grows by one and the connection cycles that follow
    write nothing to any handle; if a command comes before the timeout, the
    cycles write that command's payload to that command's handle, and
    nothing else. *)
Theorem run_iteration_keepalive_or_command (s : Machine) :
  let self := worker s in
  let s' := snd (run_iteration s) in
  (fst (queue_get (keepalive_interval self) s) = Raised Empty ->
   empty_count (worker s') = empty_count self + 1 /\
   loop_count (worker s') = loop_count self + 1 /\
   cycles (address self) None (since s s') /\
   write_calls (since s s') = [] /\
   (1 <= attempts self ->
    forall wr, behaviour_at s 0 = Connected wr ->
      fst (run_iteration s) = Returned tt /\
      since s s' = [EvConnect (address self); EvDisconnect (address self)])) /\
  (forall h p,
     fst (queue_get (keepalive_interval self) s) = Returned (h, p) ->
     empty_count (worker s') = empty_count self /\
     loop_count (worker s') = loop_count self + 1 /\
     cycles (address self) (Some (h, p)) (since s s') /\
     Forall (eq (h, p)) (write_calls (since s s')) /\
     (1 <= attempts self ->
      behaviour_at s 0 = Connected None ->
      fst (run_iteration s) = Returned tt /\
      since s s' = [EvConnect (address self); EvWriteHandle h p;
                    EvDisconnect (address self)])).
Proof.
  intros self s'. subst self s'. split.
  - intros Hget. destruct (queue_get_timeout s Hget) as (Hk & Hnil).
    rewrite (run_iteration_spec s Hk). unfold after_poll. rewrite Hnil.
    cbn [fst snd]. set (s0 := {| worker := _; world := _ |}).
    rewrite !(@since_same_trace s s0) by reflexivity.
    destruct (write_any None s0) as (r & w' & new & rd & d & Hw & Hs & Hc & _).
    assert (Hcycles : cycles (address (worker s)) None (since s0 (snd (write None s0)))).
    { rewrite Hw. cbn [snd]. rewrite since_evolve. exact Hc. }
    split; [|split; [|split; [exact Hcycles|split]]].
    + rewrite Hw. cbn [snd evolve worker]. apply Hs.
    + rewrite Hw. cbn [snd evolve worker]. apply Hs.
    + exact (cycles_keepalive_silent Hcycles).
    + intros Hn wr Hb.
      rewrite (@write_first_try None s0 Hn)
        by (change (behaviour_at s0 0) with (behaviour_at s 0); rewrite Hb; reflexivity).
      cbn [fst snd]. rewrite since_evolve.
      change (behaviour_at s0 0) with (behaviour_at s 0). rewrite Hb.
      split; reflexivity.
  - intros h p Hget. destruct (queue_get_item s Hget) as (Hk & rest & Hq).
    rewrite (run_iteration_spec s Hk). unfold after_poll. rewrite Hq.
    cbn [fst snd]. set (s0 := {| worker := _; world := _ |}).
    rewrite !(@since_same_trace s s0) by reflexivity.
    destruct (write_any (@Some command (h, p)) s0) as (r & w' & new & rd & d & Hw & Hs & Hc & _).
    assert (Hcycles : cycles (address (worker s)) (Some (h, p))
                        (since s0 (snd (write (@Some command (h, p)) s0)))).
    { rewrite Hw. cbn [snd]. rewrite since_evolve. exact Hc. }
    split; [|split; [|split; [exact Hcycles|split]]].
    + rewrite Hw. cbn [snd evolve worker]. apply Hs.
    + rewrite Hw. cbn [snd evolve worker]. apply Hs.
    + exact (cycles_only_event Hcycles).
    + intros Hn Hb.
      rewrite (@write_first_try (@Some command (h, p)) s0 Hn)
        by (change (behaviour_at s0 0) with (behaviour_at s 0); rewrite Hb; reflexivity).
      cbn [fst snd]. rewrite since_evolve.
      change (behaviour_at s0 0) with (behaviour_at s 0). rewrite Hb.
      split; reflexivity.
Qed.

(** A wait that times out, then one that is answered by a command, each on a
    backend that accepts the connection. *)
Lemma run_iteration_keepalive_or_command_witness :
  (let s := sample_machine 100 (fails_then_succeeds 0) quiet in
   empty_count (worker (snd (run_iteration s))) = 1 /\
   since s (snd (run_iteration s))
   = [EvConnect sample_address; EvDisconnect sample_address]) /\
  (let s := sample_machine 100 (fails_then_succeeds 0) (one_command sample_command) in
   empty_count (worker (snd (run_iteration s))) = 0 /\
   since s (snd (run_iteration s))
   = [EvConnect sample_address;
      EvWriteHandle RGBWInteractor.control_handle [xcc; x23; x33];
      EvDisconnect sample_address]).
Proof.
  split.
  - destruct (proj1 (run_iteration_keepalive_or_command
                       (sample_machine 100 (fails_then_succeeds 0) quiet)) eq_refl)
      as (Hempty & _ & _ & _ & Hcycle).
    destruct (Hcycle ltac:(cbn; lia) None eq_refl) as (_ & Htrace).
    split; [exact Hempty|exact Htrace].
  - destruct (proj2 (run_iteration_keepalive_or_command
                       (sample_machine 100 (fails_then_succeeds 0)
                          (one_command sample_command)))
                    RGBWInteractor.control_handle [xcc; x23; x33] eq_refl)
      as (Hempty & _ & _ & _ & Hcycle).
    destruct (Hcycle ltac:(cbn; lia) eq_refl) as (_ & Htrace).
    split; [exact Hempty|exact Htrace].
Defined.

(** When no attempt is allowed, [write] raises at once. *)
Lemma write_needs_one_attempt_witness :
  write (Some sample_command) (sample_machine 0 always_fails quiet)
  = (Raised (UnboundLocalError "i"), sample_machine 0 always_fails quiet).
Proof.
  exact (proj1 (write_needs_one_attempt (Some sample_command)
                  (sample_machine 0 always_fails quiet)) eq_refl).
Defined.

(** ** The synchronous writer *)

(** A byte-range colour sent through the synchronous writer. *)
Lemma set_color_set_white_round_trip_witness :
  let self := {| GATTToolRGBWInteractor.address := sample_address |} in
  let rgb := 0x5600000000f0aa + Z.shiftl 255 40 + Z.shiftl 128 32 + Z.shiftl 0 24 in
  @RGBWInteractor.set_color _ _ GATTToolRGBWInteractor.interactor self [255; 128; 0]
  = GATTToolRGBWInteractor._write self rgb /\
  Z.shiftr (rgb - RGBWInteractor.rgb_base) 40 = 255 /\
  Z.land (Z.shiftr (rgb - RGBWInteractor.rgb_base) 32) 0xff = 128 /\
  Z.land (Z.shiftr (rgb - RGBWInteractor.rgb_base) 24) 0xff = 0.
Proof.
  destruct (@set_color_set_white_round_trip _ _ GATTToolRGBWInteractor.interactor
              {| GATTToolRGBWInteractor.address := sample_address |} 255 128 0 7
              ltac:(lia) ltac:(lia) ltac:(lia) ltac:(lia))
    as (Hcolor & Hr & Hg & Hb & _).
  repeat split; assumption.
Defined.

Lemma command_failures_app (tr1 tr2 : list effect) :
  command_failures (tr1 ++ tr2) = command_failures tr1 ++ command_failures tr2.
Proof. apply flat_map_app. Qed.

Lemma tool_runs_app (tr1 tr2 : list effect) :
  tool_runs (tr1 ++ tr2) = tool_runs tr1 ++ tool_runs tr2.
Proof. apply flat_map_app. Qed.

Lemma respawn_respawn (w : World) (n1 n2 : list effect) (d1 d2 : nat) :
  respawn (respawn w n1 d1) n2 d2 = respawn w (n1 ++ n2) (d2 + d1).
Proof. unfold respawn; cbn. rewrite <- app_assoc, Nat.add_assoc. reflexivity. Qed.

Lemma respawn_nothing (w : World) : respawn w [] 0 = w.
Proof. destruct w. unfold respawn; cbn. rewrite app_nil_r. reflexivity. Qed.

Lemma appended_respawn (w : World) (new : list effect) (d : nat) :
  appended (trace w) (trace (respawn w new d)) = new.
Proof.
  unfold appended, respawn; cbn.
  rewrite skipn_app, Nat.sub_diag, skipn_all. reflexivity.
Qed.

(** One turn of the synchronous writer's loop, by what the tool does. *)
Lemma gatttool_attempt_spec (argv : list string) (n : Z) (w : World) :
  gatttool_attempt argv n w
  = match tool w (spawns w) with
    | SpawnRaises msg => (Raised (OSError msg), respawn w [EvRunFailed argv (OSError msg)] 1)
    | Exits rc out err =>
        if rc =? 0
        then (Returned Break, respawn w [EvRun argv rc] 1)
        else (Returned Next,
              respawn w [EvRun argv rc;
                         EvLog WARNING
                           (MsgCommandFailed n (CalledProcessError rc out err))] 1)
    end.
Proof.
  destruct w as [tr clk rd bk dl tl sp pr wt].
  unfold gatttool_attempt, try_except, bind, subprocess_run, respawn, log, modify, ret.
  cbn. destruct (tl sp) as [rc out err|msg]; [destruct (rc =? 0)|];
    normalise_state; reflexivity.
Qed.

(** The synchronous writer's loop over [n] attempts numbered from [a]: the
    tool fails some runs, whose exit codes are [rcs], and then it succeeds,
    or the attempts are used up, or the tool cannot be started. *)
Lemma gatttool_loop (argv : list string) (n : nat) :
  forall (a : nat) (last : option Z) (w : World),
  exists rcs new r d,
    for_in (gatttool_attempt argv) (map Z.of_nat (seq a n)) last w
    = (r, respawn w new d) /\
    Forall (fun rc => rc <> 0) rcs /\
    (forall j, (j < List.length rcs)%nat ->
       exists out err, tool w (j + spawns w)%nat = Exits (nth j rcs 0) out err) /\
    command_failures new = map Z.of_nat (seq a (List.length rcs)) /\
    ((exists o out err,
        r = Returned o /\ (List.length rcs < n)%nat /\
        tool w (List.length rcs + spawns w)%nat = Exits 0 out err /\
        d = S (List.length rcs) /\ tool_runs new = rcs ++ [0]) \/
     (exists o,
        r = Returned o /\ List.length rcs = n /\ d = n /\ tool_runs new = rcs) \/
     (exists msg,
        r = Raised (OSError msg) /\ (List.length rcs < n)%nat /\
        tool w (List.length rcs + spawns w)%nat = SpawnRaises msg /\
        d = S (List.length rcs) /\ tool_runs new = rcs)).
Proof.
  induction n as [|n IH]; intros a last w; cbn [seq map for_in].
  - exists [], [], (Returned last), 0%nat. unfold ret. rewrite respawn_nothing.
    split; [reflexivity|]. split; [constructor|].
    split; [intros j Hj; cbn in Hj; lia|]. split; [reflexivity|].
    right; left. exists last. repeat split.
  - unfold bind at 1. rewrite gatttool_attempt_spec.
    destruct (tool w (spawns w)) as [rc out err|msg] eqn:E;
      [destruct (Z.eqb_spec rc 0) as [->|Hrc]|].
    + exists [], [EvRun argv 0], (Returned (Some (Z.of_nat a))), 1%nat.
      split; [reflexivity|]. split; [constructor|].
      split; [intros j Hj; cbn in Hj; lia|]. split; [reflexivity|].
      left. exists (Some (Z.of_nat a)), out, err. cbn [List.length Nat.add].
      repeat split; [lia|exact E].
    + set (failed := [EvRun argv rc;
                      EvLog WARNING
                        (MsgCommandFailed (Z.of_nat a) (CalledProcessError rc out err))]).
      set (w1 := respawn w failed 1).
      destruct (IH (S a) (Some (Z.of_nat a)) w1)
        as (rcs & new & r & d & -> & Hnz & Horacle & Hlog & Hcases).
      assert (Hshift : forall k,
                tool w1 (k + spawns w1)%nat = tool w (S k + spawns w)%nat).
      { intros k. unfold w1, respawn; cbn. rewrite Nat.add_succ_r. reflexivity. }
      exists (rc :: rcs), (failed ++ new), r, (d + 1)%nat.
      split; [unfold w1; apply f_equal, respawn_respawn|].
      split; [constructor; assumption|]. split; [|split].
      * intros [|j] Hj; cbn [nth Nat.add]; [eauto|].
        destruct (Horacle j ltac:(cbn in Hj; lia)) as (out' & err' & Hj').
        exists out', err'. rewrite <- Hj', Hshift. reflexivity.
      * rewrite command_failures_app, Hlog. reflexivity.
      * cbn [List.length]. rewrite tool_runs_app.
        destruct Hcases as [(o & out' & err' & -> & Hlen & Hok & -> & Hruns)
                           |[(o & -> & Hlen & -> & Hruns)
                            |(msg & -> & Hlen & He & -> & Hruns)]];
          rewrite Hruns.
        -- left. exists o, out', err'. rewrite Hshift in Hok.
           repeat split; [lia|exact Hok|lia].
        -- right; left. exists o. repeat split; lia.
        -- right; right. exists msg. rewrite Hshift in He.
           repeat split; [lia|exact He|lia].
    + exists [], [EvRunFailed argv (OSError msg)], (Raised (OSError msg)), 1%nat.
      split; [reflexivity|]. split; [constructor|].
      split; [intros j Hj; cbn in Hj; lia|]. split; [reflexivity|].
      right; right. exists msg. cbn [List.length Nat.add].
      repeat split; [lia|exact E].
Qed.

(** [_write] of the synchronous writer: two log records, then the loop. *)
Lemma gatttool_write_spec (self : GATTToolRGBWInteractor.t) (value : Z) (w : World) :
  GATTToolRGBWInteractor._write self value w
  = let argv := gatttool_argv self value in
    let w0 := respawn w [EvLog WARNING (MsgSendingValue value);
                         EvLog WARNING (MsgCommandIs argv)] 0 in
    match for_in (gatttool_attempt argv) (Py.range 5) None w0 with
    | (Returned _, w') => (Returned tt, w')
    | (Raised e, w') => (Raised e, w')
    | (Blocked, w') => (Blocked, w')
    end.
Proof.
  cbv zeta.
  replace (respawn w _ 0)
    with (emit (EvLog WARNING (MsgCommandIs (gatttool_argv self value)))
            (emit (EvLog WARNING (MsgSendingValue value)) w))
    by (destruct w; unfold respawn; normalise_state; reflexivity).
  reflexivity.
Qed.

(** C8: whatever the value, [_write] of the synchronous writer starts the
    external tool at most five times; the runs that exit with a non-zero
    code are each logged, with the number of the attempt, and followed by
    another attempt; the first run that exits with code zero is the last;
    and after five runs that all failed it returns, raising nothing. *)
Theorem gatttool_write_retries (self : GATTToolRGBWInteractor.t) (value : Z) (w : World) :
  let r := fst (GATTToolRGBWInteractor._write self value w) in
  let w' := snd (GATTToolRGBWInteractor._write self value w) in
  let new := appended (trace w) (trace w') in
  let started := (spawns w' - spawns w)%nat in
  (started <= 5)%nat /\
  exists rcs,
    Forall (fun rc => rc <> 0) rcs /\
    (forall j, (j < List.length rcs)%nat ->
       exists out err, tool w (j + spawns w)%nat = Exits (nth j rcs 0) out err) /\
    command_failures new = map Z.of_nat (seq 0 (List.length rcs)) /\
    ((r = Returned tt /\ (List.length rcs < 5)%nat /\
      (exists out err, tool w (List.length rcs + spawns w)%nat = Exits 0 out err) /\
      started = S (List.length rcs) /\ tool_runs new = rcs ++ [0]) \/
     (r = Returned tt /\ List.length rcs = 5%nat /\
      started = 5%nat /\ tool_runs new = rcs) \/
     (exists msg,
        r = Raised (OSError msg) /\ (List.length rcs < 5)%nat /\
        tool w (List.length rcs + spawns w)%nat = SpawnRaises msg /\
        started = S (List.length rcs) /\ tool_runs new = rcs)).
Proof.
  intros r w' new started. subst r w' new started.
  rewrite gatttool_write_spec. cbv zeta.
  set (argv := gatttool_argv self value).
  set (w0 := respawn w _ 0).
  destruct (gatttool_loop argv 5 0 None w0)
    as (rcs & new & r & d & Hloop & Hnz & Horacle & Hlog & Hcases).
  change (map Z.of_nat (seq 0 5)) with (Py.range 5) in Hloop. rewrite Hloop.
  assert (Hstate : forall c : completion unit,
             snd (c, respawn w0 new d)
             = respawn w ([EvLog WARNING (MsgSendingValue value);
                           EvLog WARNING (MsgCommandIs argv)] ++ new) (d + 0)).
  { intros c. unfold w0. rewrite respawn_respawn. reflexivity. }
  assert (Hd : (d <= 5)%nat).
  { destruct Hcases as [(o & out & err & _ & Hlen & _ & -> & _)
                       |[(o & _ & _ & -> & _)|(msg & _ & Hlen & _ & -> & _)]]; lia. }
  assert (Hout : forall c : completion unit,
             (spawns (snd (c, respawn w0 new d)) - spawns w)%nat = d /\
             command_failures (appended (trace w) (trace (snd (c, respawn w0 new d))))
             = command_failures new /\
             tool_runs (appended (trace w) (trace (snd (c, respawn w0 new d))))
             = tool_runs new).
  { intros c. rewrite Hstate, appended_respawn, command_failures_app, tool_runs_app.
    cbn [respawn spawns]. repeat split. lia. }
  destruct Hcases as [(o & out & err & -> & Hlen & Hok & -> & Hruns)
                     |[(o & -> & Hlen & -> & Hruns)
                      |(msg & -> & Hlen & He & -> & Hruns)]];
    match goal with
    | |- context [snd (?c, respawn w0 new ?k)] =>
        destruct (Hout c) as (Hs & Hc & Ht); rewrite Hs, Hc, Ht
    end; (split; [lia|]); exists rcs;
    (split; [exact Hnz|]); (split; [exact Horacle|]); (split; [exact Hlog|]).
  - left. repeat split; [exact Hlen| |exact Hruns].
    exists out, err. exact Hok.
  - right; left. repeat split; [exact Hlen|exact Hruns].
  - right; right. exists msg. repeat split; [exact Hlen|exact He|exact Hruns].
Qed.

(** The tool fails twice and then succeeds: three runs, two logged failures. *)
Example gatttool_third_run_succeeds :
  let self := {| GATTToolRGBWInteractor.address := sample_address |} in
  let w := sample_world always_fails quiet (fun n => if (n <? 2)%nat then 1 else 0) in
  let w' := snd (GATTToolRGBWInteractor._write self 0xcc2333 w) in
  fst (GATTToolRGBWInteractor._write self 0xcc2333 w) = Returned tt /\
  spawns w' = 3%nat /\
  tool_runs (trace w') = [1; 1; 0] /\
  command_failures (trace w') = [0; 1] /\
  gatttool_argv self 0xcc2333
  = ["gatttool"; "-b"; sample_address; "--char-write-req"; "--handle=0x0007";
     "--value=cc2333"].
Proof. vm_compute. repeat split. Qed.

(** The tool never succeeds: five runs, then a normal return. *)
Example gatttool_gives_up_after_five_runs :
  let self := {| GATTToolRGBWInteractor.address := sample_address |} in
  let w := sample_world always_fails quiet (fun _ => 1) in
  let w' := snd (GATTToolRGBWInteractor._write self 0xcc2433 w) in
  fst (GATTToolRGBWInteractor._write self 0xcc2433 w) = Returned tt /\
  spawns w' = 5%nat /\
  command_failures (trace w') = [0; 1; 2; 3; 4].
Proof. vm_compute. repeat split. Qed.

(** A worker allowed no attempt dies on its first turn, and the interactor
    that owns it then finds it dead. *)
Example thread_dies_with_no_attempt :
  let s := thread 1 (sample_machine 0 always_fails quiet) in
  alive (worker s) = false /\
  errors (trace (world (snd (BtlewrapRGBWInteractor._write sample_interactor 0xcc2333 s))))
  = [MsgWorkerNotAlive sample_address].
Proof. vm_compute. split; reflexivity. Qed.

(** * Further properties of the code *)

(** ** The encoder beyond the byte range *)

(** X1: [set_color] pairs its arguments with the three offsets by [zip]:
    values after the third are ignored and missing ones count as zero. *)
Theorem set_color_pads_and_truncates
    (I S : Type) (interactor : RGBWInteractor.Interface I S) (self : I) (values : list Z) :
  RGBWInteractor.set_color self values
  = RGBWInteractor.set_color self (firstn 3 (values ++ [0; 0; 0])).
Proof.
  unfold RGBWInteractor.set_color. f_equal. f_equal.
  destruct values as [|r [|g [|b rest]]];
    unfold Py.zip, Py.sum, RGBWInteractor.rgb_offsets;
    cbn [app firstn combine map fst snd fold_left];
    rewrite ?Z.shiftl_0_l, ?combine_nil; cbn [map fold_left]; lia.
Qed.

(** X2: [set_color] does not clamp: a green value 256 too large is the same
    command as a red value one larger, and a red value 256 too large changes
    the constant byte above the colour fields. *)
Theorem set_color_carries_into_next_field
    (I S : Type) (interactor : RGBWInteractor.Interface I S) (self : I) (r g b : Z) :
  RGBWInteractor.set_color self [r; g + 256; b] = RGBWInteractor.set_color self [r + 1; g; b] /\
  RGBWInteractor.set_color self [r; g; b + 256] = RGBWInteractor.set_color self [r; g + 1; b] /\
  RGBWInteractor.set_color self [r + 256; g; b]
  = RGBWInteractor._write self
      (0x5700000000f0aa + Z.shiftl r 40 + Z.shiftl g 32 + Z.shiftl b 24).
Proof.
  unfold RGBWInteractor.set_color, RGBWInteractor.rgb_base, Py.sum.
  cbn [Py.zip combine RGBWInteractor.rgb_offsets map fst snd fold_left].
  change (5 * 8) with 40. change (4 * 8) with 32. change (3 * 8) with 24.
  rewrite !Z.shiftl_mul_pow2 by lia.
  change (2 ^ 40) with 1099511627776. change (2 ^ 32) with 4294967296.
  change (2 ^ 24) with 16777216.
  repeat split; f_equal; lia.
Qed.

Lemma bit_length_unique (v l : Z) :
  0 < l -> 2 ^ (l - 1) <= v < 2 ^ l -> Py.bit_length v = l.
Proof.
  intros Hl (Hlo & Hhi).
  assert (Hv : 0 < v).
  { apply Z.lt_le_trans with (2 ^ (l - 1)); [apply Z.pow_pos_nonneg; lia|exact Hlo]. }
  destruct (bit_length_bounds Hv) as (Hb & Hblo & Hbhi).
  set (k := Py.bit_length v) in *.
  destruct (Z.lt_trichotomy k l) as [Hlt|[Heq|Hgt]]; [|exact Heq|].
  - assert (2 ^ k <= 2 ^ (l - 1)) by (apply Z.pow_le_mono_r; lia). lia.
  - assert (2 ^ l <= 2 ^ (k - 1)) by (apply Z.pow_le_mono_r; lia). lia.
Qed.

(** The seven bytes of a value whose top byte is [0x56]. *)
Lemma pack_seven_bytes (v b5 b4 b3 b2 b1 b0 : Z) :
  0 <= b5 < 256 -> 0 <= b4 < 256 -> 0 <= b3 < 256 ->
  0 <= b2 < 256 -> 0 <= b1 < 256 -> 0 <= b0 < 256 ->
  v = 0x56 * 2 ^ 48 + b5 * 2 ^ 40 + b4 * 2 ^ 32 + b3 * 2 ^ 24
      + b2 * 2 ^ 16 + b1 * 2 ^ 8 + b0 ->
  BtlewrapRGBWInteractor._pack v
  = Returned [x56; Py.byte_of_Z b5; Py.byte_of_Z b4; Py.byte_of_Z b3;
              Py.byte_of_Z b2; Py.byte_of_Z b1; Py.byte_of_Z b0].
Proof.
  intros H5 H4 H3 H2 H1 H0 Hv.
  change (2 ^ 48) with 281474976710656 in Hv. change (2 ^ 40) with 1099511627776 in Hv.
  change (2 ^ 32) with 4294967296 in Hv. change (2 ^ 24) with 16777216 in Hv.
  change (2 ^ 16) with 65536 in Hv. change (2 ^ 8) with 256 in Hv.
  rewrite pack_nonneg by lia.
  rewrite (@bit_length_unique v 55)
    by (change (2 ^ (55 - 1)) with 18014398509481984;
        change (2 ^ 55) with 36028797018963968; lia).
  change (Z.to_nat (Py.ceil_div 55 8)) with 7%nat.
  cbn [Py.big_endian app]. f_equal.
  assert (E0 : v mod 256 = b0) by (Z.div_mod_to_equations; lia).
  assert (D1 : v / 256 = 0x56 * 1099511627776 + b5 * 4294967296 + b4 * 16777216
                         + b3 * 65536 + b2 * 256 + b1)
    by (Z.div_mod_to_equations; lia).
  rewrite D1.
  assert (E1 : (0x56 * 1099511627776 + b5 * 4294967296 + b4 * 16777216
                + b3 * 65536 + b2 * 256 + b1) mod 256 = b1)
    by (Z.div_mod_to_equations; lia).
  assert (D2 : (0x56 * 1099511627776 + b5 * 4294967296 + b4 * 16777216
                + b3 * 65536 + b2 * 256 + b1) / 256
               = 0x56 * 4294967296 + b5 * 16777216 + b4 * 65536 + b3 * 256 + b2)
    by (Z.div_mod_to_equations; lia).
  rewrite D2.
  assert (E2 : (0x56 * 4294967296 + b5 * 16777216 + b4 * 65536 + b3 * 256 + b2) mod 256
               = b2) by (Z.div_mod_to_equations; lia).
  assert (D3 : (0x56 * 4294967296 + b5 * 16777216 + b4 * 65536 + b3 * 256 + b2) / 256
               = 0x56 * 16777216 + b5 * 65536 + b4 * 256 + b3)
    by (Z.div_mod_to_equations; lia).
  rewrite D3.
  assert (E3 : (0x56 * 16777216 + b5 * 65536 + b4 * 256 + b3) mod 256 = b3)
    by (Z.div_mod_to_equations; lia).
  assert (D4 : (0x56 * 16777216 + b5 * 65536 + b4 * 256 + b3) / 256
               = 0x56 * 65536 + b5 * 256 + b4) by (Z.div_mod_to_equations; lia).
  rewrite D4.
  assert (E4 : (0x56 * 65536 + b5 * 256 + b4) mod 256 = b4)
    by (Z.div_mod_to_equations; lia).
  assert (D5 : (0x56 * 65536 + b5 * 256 + b4) / 256 = 0x56 * 256 + b5)
    by (Z.div_mod_to_equations; lia).
  rewrite D5.
  assert (E5 : (0x56 * 256 + b5) mod 256 = b5) by (Z.div_mod_to_equations; lia).
  assert (D6 : (0x56 * 256 + b5) / 256 = 0x56) by (Z.div_mod_to_equations; lia).
  rewrite D6, E0, E1, E2, E3, E4, E5. reflexivity.
Qed.

Lemma Z_of_byte_of_small (z : Z) : 0 <= z < 256 -> Py.Z_of_byte (Py.byte_of_Z z) = z.
Proof. intros Hz. rewrite Z_of_byte_of_Z. apply Z.mod_small. exact Hz. Qed.

(** X3: the bytes on the wire.  Through the persistent writer, a colour in
    the byte range is queued for handle 7 as the seven bytes
    [56 rr gg bb 00 f0 aa], and a white level as [56 00 00 00 ww 0f aa]. *)
Theorem persistent_wire_format
    (self : BtlewrapRGBWInteractor.t) (s : Machine) (r g b w : Z) :
  0 <= r <= 255 -> 0 <= g <= 255 -> 0 <= b <= 255 -> 0 <= w <= 255 ->
  maxsize (queue (worker s)) <= 0 ->
  let color := @RGBWInteractor.set_color _ _ BtlewrapRGBWInteractor.interactor
                 self [r; g; b] s in
  let white := @RGBWInteractor.set_white _ _ BtlewrapRGBWInteractor.interactor
                 self w s in
  (exists payload,
     fst color = Returned tt /\
     items (queue (worker (snd color))) = items (queue (worker s)) ++ [(7, payload)] /\
     map Py.Z_of_byte payload = [0x56; r; g; b; 0x00; 0xf0; 0xaa]) /\
  (exists payload,
     fst white = Returned tt /\
     items (queue (worker (snd white))) = items (queue (worker s)) ++ [(7, payload)] /\
     map Py.Z_of_byte payload = [0x56; 0x00; 0x00; 0x00; w; 0x0f; 0xaa]).
Proof.
  intros Hr Hg Hb Hw Hmax color white. subst color white.
  unfold RGBWInteractor.set_color, RGBWInteractor.set_white.
  cbn [RGBWInteractor._write BtlewrapRGBWInteractor.interactor].
  split; eexists.
  - erewrite persistent_write_spec; [|exact Hmax|].
    2:{ apply (@pack_seven_bytes _ r g b 0 0xf0 0xaa); try lia.
        unfold RGBWInteractor.rgb_base, Py.sum, Py.zip, RGBWInteractor.rgb_offsets.
        cbn [combine map fst snd fold_left].
        change (5 * 8) with 40. change (4 * 8) with 32. change (3 * 8) with 24.
        rewrite !Z.shiftl_mul_pow2 by lia.
        change (2 ^ 48) with 281474976710656. change (2 ^ 40) with 1099511627776.
        change (2 ^ 32) with 4294967296. change (2 ^ 24) with 16777216.
        change (2 ^ 16) with 65536. change (2 ^ 8) with 256. lia. }
    cbn [fst snd evolve worker queue set_queue items].
    split; [reflexivity|]. split; [reflexivity|].
    cbn [map]. rewrite !Z_of_byte_of_small by lia. reflexivity.
  - erewrite persistent_write_spec; [|exact Hmax|].
    2:{ apply (@pack_seven_bytes _ 0 0 0 w 0x0f 0xaa); try lia.
        unfold RGBWInteractor.white_base, RGBWInteractor.white_offset.
        change (2 * 8) with 16. rewrite !Z.shiftl_mul_pow2 by lia.
        change (2 ^ 48) with 281474976710656. change (2 ^ 40) with 1099511627776.
        change (2 ^ 32) with 4294967296. change (2 ^ 24) with 16777216.
        change (2 ^ 16) with 65536. change (2 ^ 8) with 256. lia. }
    cbn [fst snd evolve worker queue set_queue items].
    split; [reflexivity|]. split; [reflexivity|].
    cbn [map]. rewrite !Z_of_byte_of_small by lia. reflexivity.
Qed.

(** Orange at full red, and a dim white, queued on a fresh worker. *)
Lemma persistent_wire_format_witness :
  exists payload,
    items (queue (worker (snd (@RGBWInteractor.set_color _ _
                                  BtlewrapRGBWInteractor.interactor sample_interactor
                                  [255; 128; 0]
                                  (sample_machine 100 always_fails quiet)))))
    = [(7, payload)] /\
    map Py.Z_of_byte payload = [0x56; 255; 128; 0; 0x00; 0xf0; 0xaa].
Proof.
  destruct (proj1 (@persistent_wire_format sample_interactor
                     (sample_machine 100 always_fails quiet) 255 128 0 16
                     ltac:(lia) ltac:(lia) ltac:(lia) ltac:(lia) ltac:(cbn; lia)))
    as (payload & _ & Hitems & Hbytes).
  exists payload. split; [exact Hitems|exact Hbytes].
Defined.

Lemma bit_length_nonneg (v : Z) : 0 <= Py.bit_length v.
Proof. destruct v; cbn; lia. Qed.

(** X4: a negative value cannot be packed: [_pack] raises [OverflowError],
    and the persistent [_write] raises it after its log records are written
    and before anything is put in the inbox, whether the worker is alive or
    not. *)
Theorem persistent_write_rejects_negative
    (self : BtlewrapRGBWInteractor.t) (value : Z) (s : Machine) :
  value < 0 ->
  let refusal := OverflowError "can't convert negative int to unsigned" in
  let s' := snd (BtlewrapRGBWInteractor._write self value s) in
  BtlewrapRGBWInteractor._pack value = Raised refusal /\
  fst (BtlewrapRGBWInteractor._write self value s) = Raised refusal /\
  worker s' = worker s /\
  since s s'
  = (if alive (worker s) then []
     else [EvLog ERROR (MsgWorkerNotAlive (BtlewrapRGBWInteractor.address self))])
    ++ [EvLog INFO (MsgSubmitting (BtlewrapRGBWInteractor.address self)
                      (qsize (queue (worker s))));
        EvLog INFO (MsgWorkerStats (BtlewrapRGBWInteractor.address self)
                      (loop_count (worker s)) (failure_count (worker s)))].
Proof.
  intros Hv refusal s'. subst refusal s'.
  assert (Hpack : BtlewrapRGBWInteractor._pack value
                  = Raised (OverflowError "can't convert negative int to unsigned")).
  { unfold BtlewrapRGBWInteractor._pack, Py.to_bytes. rewrite ceil_div_8.
    pose proof (bit_length_nonneg value) as Hl.
    destruct (Z.ltb_spec ((Py.bit_length value + 7) / 8) 0) as [Hneg|_].
    - exfalso. revert Hneg. Z.div_mod_to_equations. lia.
    - destruct (Z.ltb_spec value 0); [reflexivity|lia]. }
  split; [exact Hpack|].
  assert (Hwrite : BtlewrapRGBWInteractor._write self value s
                   = (Raised (OverflowError "can't convert negative int to unsigned"),
                      evolve s (worker s)
                        ((if alive (worker s) then []
                          else [EvLog ERROR
                                  (MsgWorkerNotAlive (BtlewrapRGBWInteractor.address self))])
                         ++ [EvLog INFO (MsgSubmitting (BtlewrapRGBWInteractor.address self)
                                           (qsize (queue (worker s))));
                             EvLog INFO (MsgWorkerStats (BtlewrapRGBWInteractor.address self)
                                           (loop_count (worker s))
                                           (failure_count (worker s)))])
                        0 0)).
  { destruct s as [w [tr clk rd bk dl tl sp pr wt]].
    unfold BtlewrapRGBWInteractor._write, evolve, bind, gets, inW, log, modify, ret, call.
    cbn [worker world] in *. rewrite Hpack.
    destruct (alive w); normalise_state; reflexivity. }
  rewrite Hwrite. cbn [fst snd]. rewrite since_evolve. repeat split.
Qed.

(** A negative value sent to a live worker. *)
Lemma persistent_write_rejects_negative_witness :
  fst (BtlewrapRGBWInteractor._write sample_interactor (-0xcc2333)
         (sample_machine 100 always_fails quiet))
  = Raised (OverflowError "can't convert negative int to unsigned").
Proof.
  exact (proj1 (proj2 (@persistent_write_rejects_negative sample_interactor (-0xcc2333)
                         (sample_machine 100 always_fails quiet) ltac:(lia)))).
Defined.


(** ** The retry loop on any backend *)

Lemma slow_reports_app (tr1 tr2 : list effect) :
  slow_reports (tr1 ++ tr2) = slow_reports tr1 ++ slow_reports tr2.
Proof. apply flat_map_app. Qed.

Lemma slow_reports_cycle_events (a : string) (ev : option command) (b : conn_behaviour) :
  slow_reports (cycle_events a ev b) = [].
Proof. destruct b as [e|[e|]]; destruct ev as [[h p]|]; reflexivity. Qed.

Lemma slow_reports_slow_log (q : Q) : (List.length (slow_reports (slow_log q)) <= 1)%nat.
Proof. unfold slow_log. destruct (Qle_bool q 10); cbn; lia. Qed.

Lemma slow_reports_attempts_warning (a : string) (made : Z) :
  slow_reports (attempts_warning a made) = [].
Proof. unfold attempts_warning. destruct (10 <? made - 1); reflexivity. Qed.

(** The loop counts each turn once: as a failure, as the one success that
    ends it, or not at all when the turn lets an exception escape. *)
Lemma retry_counts (event : option command) (idxs : list Z) :
  forall (last : option Z) (s : Machine),
  exists r f sc new rd d,
    for_in (attempt event) idxs last s
    = (r, evolve s (tally (worker s) f sc) new rd d) /\
    0 <= f /\ (sc = 0 \/ sc = 1) /\ (d <= List.length idxs)%nat /\
    Z.of_nat (List.length (slow_reports new)) <= f /\
    match r with
    | Returned _ => f + sc = Z.of_nat d
    | Raised _ => f + 1 = Z.of_nat d /\ sc = 0
    | Blocked => False
    end.
Proof.
  induction idxs as [|i idxs IH]; intros last s; cbn [for_in].
  - exists (Returned last), 0, 0, [], 0%nat, 0%nat. unfold ret.
    rewrite tally_nothing, evolve_nothing. cbn. repeat split; auto; lia.
  - unfold bind at 1. rewrite attempt_spec. cbv zeta.
    destruct (cycle_raises event (next_behaviour s)) as [e|] eqn:E;
      [destruct (transport_failure e) eqn:T|].
    + set (s1 := evolve s _ _ 2 1).
      destruct (IH (Some i) s1) as (r & f & sc & new & rd & d & -> & Hf & Hsc & Hd & Hslow & Hr).
      exists r, (f + 1), sc. eexists. exists (rd + 2)%nat, (d + 1)%nat.
      unfold s1. rewrite evolve_evolve. cbn [evolve worker]. rewrite tally_failure.
      split; [reflexivity|].
      rewrite !slow_reports_app, slow_reports_cycle_events. cbn [app slow_reports flat_map].
      pose proof (slow_reports_slow_log
                    (clock (world s) (S (clock_reads (world s)))
                     - clock (world s) (clock_reads (world s)))) as Hone.
      fold (slow_reports (slow_log (clock (world s) (S (clock_reads (world s)))
                                    - clock (world s) (clock_reads (world s))))).
      rewrite length_app. cbn [List.length].
      repeat split; try lia; destruct r; try lia; exact Hr.
    + exists (Raised e), 0, 0. do 3 eexists. rewrite tally_nothing.
      split; [reflexivity|]. rewrite slow_reports_cycle_events. cbn.
      repeat split; auto; lia.
    + exists (Returned (Some i)), 0, 1. do 3 eexists. rewrite <- tally_success.
      split; [reflexivity|]. rewrite slow_reports_cycle_events. cbn.
      repeat split; auto; lia.
Qed.

Lemma range_length (n : Z) : List.length (Py.range n) = Z.to_nat n.
Proof. unfold Py.range. rewrite length_map, length_seq. reflexivity. Qed.

(** When an attempt is allowed, [write] asks for a connection. *)
Lemma write_dials_once (event : option command) (s : Machine) :
  1 <= attempts (worker s) ->
  exists r w' new rd d, write event s = (r, evolve s w' new rd (S d)).
Proof.
  intros Hn. unfold write, bind at 1, gets. unfold bind at 1, Py.range.
  destruct (Z.to_nat (attempts (worker s))) as [|m] eqn:E; [lia|].
  cbn [seq map for_in]. unfold bind at 1. rewrite attempt_spec. cbv zeta.
  destruct (cycle_raises event (next_behaviour s)) as [e|];
    [destruct (transport_failure e)|].
  - set (s1 := evolve s _ _ 2 1).
    destruct (retry_counts event (map Z.of_nat (seq 1 m)) (Some (Z.of_nat 0)) s1)
      as (r & f & sc & new & rd & d & -> & _).
    unfold s1. rewrite evolve_evolve. replace (d + 1)%nat with (S d) by lia.
    destruct r as [[i|]|e'|].
    + rewrite (after_loop s s). do 5 eexists. reflexivity.
    + do 5 eexists. reflexivity.
    + do 5 eexists. reflexivity.
    + do 5 eexists. reflexivity.
  - do 5 eexists. reflexivity.
  - unfold ret. rewrite (after_loop s s). do 5 eexists. reflexivity.
Qed.

(** X6: whatever the backend does, one [write] asks for no more connections
    than the attempts allowed and for at least one when an attempt is
    allowed, never lowers a counter, counts at most one success, and counts
    every connection asked exactly once, as a failure or as the success,
    except the one on which an exception escaped; it reports the duration of
    no more attempts than it counted as failed; and when no attempt is
    allowed it raises on the unbound loop variable, having done nothing. *)
Theorem write_counts_every_attempt (event : option command) (s : Machine) :
  let s' := snd (write event s) in
  let made := Z.of_nat (dials (world s') - dials (world s)) in
  let failed := failure_count (worker s') - failure_count (worker s) in
  let succeeded := success_count (worker s') - success_count (worker s) in
  made <= Z.max 0 (attempts (worker s)) /\
  0 <= failed /\ (succeeded = 0 \/ succeeded = 1) /\
  Z.of_nat (List.length (slow_reports (since s s'))) <= failed /\
  match fst (write event s) with
  | Returned _ => failed + succeeded = made
  | Raised _ =>
      (attempts (worker s) <= 0 /\ made = 0 /\ failed = 0 /\ succeeded = 0) \/
      (failed + 1 = made /\ succeeded = 0)
  | Blocked => False
  end /\
  (attempts (worker s) <= 0 ->
   write event s = (Raised (UnboundLocalError "i"), s)) /\
  (1 <= attempts (worker s) -> 1 <= made).
Proof.
  intros s' made failed succeeded.
  assert (Hunbound : attempts (worker s) <= 0 ->
                     write event s = (Raised (UnboundLocalError "i"), s))
    by apply write_unbound.
  assert (Hdial : 1 <= attempts (worker s) -> 1 <= made).
  { intros Hn. subst made s'.
    destruct (write_dials_once event s Hn) as (r & w' & new & rd & d & ->).
    cbn [snd evolve world dials]. lia. }
  revert Hunbound Hdial. subst s' made failed succeeded. intros Hunbound Hdial.
  enough (Hmain :
            Z.of_nat (dials (world (snd (write event s))) - dials (world s))
            <= Z.max 0 (attempts (worker s)) /\
            0 <= failure_count (worker (snd (write event s))) - failure_count (worker s) /\
            (success_count (worker (snd (write event s))) - success_count (worker s) = 0 \/
             success_count (worker (snd (write event s))) - success_count (worker s) = 1) /\
            Z.of_nat (List.length (slow_reports (since s (snd (write event s)))))
            <= failure_count (worker (snd (write event s))) - failure_count (worker s) /\
            match fst (write event s) with
            | Returned _ =>
                failure_count (worker (snd (write event s))) - failure_count (worker s)
                + (success_count (worker (snd (write event s))) - success_count (worker s))
                = Z.of_nat (dials (world (snd (write event s))) - dials (world s))
            | Raised _ =>
                (attempts (worker s) <= 0 /\
                 Z.of_nat (dials (world (snd (write event s))) - dials (world s)) = 0 /\
                 failure_count (worker (snd (write event s))) - failure_count (worker s) = 0 /\
                 success_count (worker (snd (write event s))) - success_count (worker s) = 0) \/
                (failure_count (worker (snd (write event s))) - failure_count (worker s) + 1
                 = Z.of_nat (dials (world (snd (write event s))) - dials (world s)) /\
                 success_count (worker (snd (write event s))) - success_count (worker s) = 0)
            | Blocked => False
            end).
  { destruct Hmain as (H1 & H2 & H3 & H4 & H5).
    split; [exact H1|]. split; [exact H2|]. split; [exact H3|]. split; [exact H4|].
    split; [exact H5|]. split; [exact Hunbound|exact Hdial]. }
  clear Hunbound Hdial.
  unfold write, bind at 1 3 5 7 9 11, gets. unfold bind.
  destruct (retry_counts event (Py.range (attempts (worker s))) None s)
    as (r & f & sc & new & rd & d & Hloop & Hf & Hsc & Hd & Hslow & Hr).
  destruct (retry_any event (Py.range (attempts (worker s))) None s)
    as (r' & w' & new' & rd' & d' & Hany & _ & _ & _ & Hr').
  assert (Hsame : r' = r) by congruence. subst r'. clear Hany.
  rewrite range_length in Hd. rewrite Hloop.
  assert (Hcount : forall (c : completion unit) extra,
            slow_reports extra = [] ->
            let s' := snd (c, evolve s (tally (worker s) f sc) (new ++ extra) rd d) in
            Z.of_nat (dials (world s') - dials (world s)) = Z.of_nat d /\
            failure_count (worker s') - failure_count (worker s) = f /\
            success_count (worker s') - success_count (worker s) = sc /\
            slow_reports (since s s') = slow_reports new).
  { intros c extra Hextra. cbn [snd]. rewrite since_evolve, slow_reports_app, Hextra, app_nil_r.
    cbn [evolve world worker dials tally set_success_count set_failure_count
         failure_count success_count].
    rewrite Nat.add_sub. repeat split; lia. }
  cbv zeta in Hcount.
  destruct r as [[i|]|e|]; [| | |contradiction].
  - rewrite (after_loop s s).
    destruct (Hcount (Returned tt) (attempts_warning (address (worker s)) (i + 1))
                (slow_reports_attempts_warning _ _)) as (H1 & H2 & H3 & H4).
    rewrite H1, H2, H3, H4. cbn [fst]. repeat split; try lia; try exact Hsc.
  - unfold raise. rewrite <- (app_nil_r new).
    destruct (Hcount (Raised (UnboundLocalError "i")) [] eq_refl) as (H1 & H2 & H3 & H4).
    rewrite H1, H2, H3, H4. cbn [fst].
    destruct Hr' as [(Hnil & _)|(_ & i & Hi)]; [|discriminate].
    apply (f_equal (@List.length Z)) in Hnil. rewrite range_length in Hnil.
    cbn [List.length] in Hnil.
    repeat split; try lia; try exact Hsc; left; repeat split; lia.
  - rewrite <- (app_nil_r new).
    destruct (Hcount (Raised e) [] eq_refl) as (H1 & H2 & H3 & H4).
    rewrite H1, H2, H3, H4. cbn [fst]. destruct Hr as (Hfd & ->).
    repeat split; lia.
Qed.

(** ** The main loop over many turns *)

(** What the wait on the inbox changes in the machine: the turn count, the
    queue, the count of empty waits and the number of waits, and nothing else. *)
Lemma after_poll_frame (s : Machine) :
  let s0 := snd (after_poll s) in
  (address (worker s0) = address (worker s) /\
   keepalive_interval (worker s0) = keepalive_interval (worker s) /\
   attempts (worker s0) = attempts (worker s) /\
   alive (worker s0) = alive (worker s)) /\
  (loop_count (worker s0) = loop_count (worker s) + 1 /\
   failure_count (worker s0) = failure_count (worker s) /\
   success_count (worker s0) = success_count (worker s) /\
   maxsize (queue (worker s0)) = maxsize (queue (worker s))) /\
  (backend (world s0) = backend (world s) /\
   dials (world s0) = dials (world s) /\
   trace (world s0) = trace (world s) /\
   producers (world s0) = producers (world s) /\
   waits (world s0) = S (waits (world s))).
Proof.
  unfold after_poll.
  destruct (items (queue (worker s)) ++ producers (world s) (waits (world s)));
    cbn; repeat split.
Qed.

(** A negative keepalive interval: the wait raises at once, the turn is
    counted and nothing else happens. *)
Lemma run_iteration_negative_timeout (s : Machine) :
  Qle_bool 0 (keepalive_interval (worker s)) = false ->
  run_iteration s
  = (Raised (ValueError "'timeout' must be a non-negative number"),
     {| worker := set_loop_count (loop_count (worker s) + 1) (worker s);
        world := world s |}).
Proof.
  intros Hk. destruct s as [w wd].
  unfold run_iteration, bind, update, modify, gets, try_except, queue_get, raise.
  cbn -[write] in *. rewrite Hk. reflexivity.
Qed.

(** One turn, on any machine: it is counted, it counts at most one empty
    wait, it keeps the settings of the worker, and it does not wait for ever. *)
Lemma run_iteration_counts (s : Machine) :
  let s' := snd (run_iteration s) in
  loop_count (worker s') = loop_count (worker s) + 1 /\
  (empty_count (worker s') = empty_count (worker s) \/
   empty_count (worker s') = empty_count (worker s) + 1) /\
  fst (run_iteration s) <> Blocked.
Proof.
  cbv zeta. destruct (Qle_bool 0 (keepalive_interval (worker s))) eqn:Hk.
  - rewrite (run_iteration_spec s Hk).
    destruct (write_any (fst (after_poll s)) (snd (after_poll s)))
      as (r & w' & new & rd & d & -> & Hs & _ & Hr).
    destruct (after_poll_frame s) as (_ & (Hloop & _) & _).
    destruct Hs as (_ & _ & _ & _ & Hl & He & _).
    cbn [fst snd evolve worker]. rewrite Hl, He, Hloop.
    split; [reflexivity|]. split.
    + unfold after_poll.
      destruct (items (queue (worker s)) ++ producers (world s) (waits (world s)));
        cbn; auto.
    + destruct r; [discriminate..|contradiction].
  - rewrite (run_iteration_negative_timeout s Hk). cbn. repeat split; auto. discriminate.
Qed.

(** The counters of [run] against the turns allowed. *)
Lemma run_counts_bounds (turns : nat) (s : Machine) :
  let s' := snd (run turns s) in
  let started := loop_count (worker s') - loop_count (worker s) in
  let idle := empty_count (worker s') - empty_count (worker s) in
  0 <= idle <= started /\ started <= Z.of_nat turns /\
  (fst (run turns s) = Returned tt -> started = Z.of_nat turns) /\
  (forall e, fst (run turns s) = Raised e -> 1 <= started) /\
  fst (run turns s) <> Blocked.
Proof.
  cbv zeta. revert s. induction turns as [|n IH]; intros s.
  - cbn. repeat split; try lia; discriminate.
  - cbn [run]. unfold bind.
    destruct (run_iteration_counts s) as (Hloop & Hempty & Hblocked).
    destruct (run_iteration s) as [[[]|e|] s1]; cbn [fst snd] in *.
    + specialize (IH s1). destruct IH as (Hidle & Hstarted & Hret & Hraise & Hnb).
      rewrite Nat2Z.inj_succ.
      split; [lia|]. split; [lia|]. split; [|split; [|exact Hnb]].
      * intros H. specialize (Hret H). lia.
      * intros e H. lia.
    + rewrite Nat2Z.inj_succ. repeat split; try lia; discriminate.
    + contradiction.
Qed.

(** One turn with a valid keepalive interval: one wait is made, which
    receives what the producers put and takes the head of the queue, or
    counts an empty wait when there is nothing to take. *)
Lemma run_iteration_wait (s : Machine) :
  Qle_bool 0 (keepalive_interval (worker s)) = true ->
  let s' := snd (run_iteration s) in
  let pending := items (queue (worker s)) ++ producers (world s) (waits (world s)) in
  keepalive_interval (worker s') = keepalive_interval (worker s) /\
  producers (world s') = producers (world s) /\
  waits (world s') = S (waits (world s)) /\
  loop_count (worker s') = loop_count (worker s) + 1 /\
  items (queue (worker s')) = tl pending /\
  empty_count (worker s')
  = empty_count (worker s) + match pending with [] => 1 | _ :: _ => 0 end.
Proof.
  intros Hk. cbv zeta. rewrite (run_iteration_spec s Hk).
  destruct (write_any (fst (after_poll s)) (snd (after_poll s)))
    as (r & w' & new & rd & d & -> & Hs & _).
  destruct Hs as (_ & Hkeep & _ & Hq & Hl & He & _).
  cbn [snd evolve worker world producers waits]. rewrite Hkeep, Hq, Hl, He.
  unfold after_poll.
  destruct (items (queue (worker s)) ++ producers (world s) (waits (world s)));
    cbn; repeat split; lia.
Qed.

(** The counters of [run] against the waits made on the inbox. *)
Lemma run_waits (turns : nat) :
  forall s : Machine,
    Qle_bool 0 (keepalive_interval (worker s)) = true ->
    exists waited,
      waits (world (snd (run turns s))) = (waited + waits (world s))%nat /\
      loop_count (worker (snd (run turns s))) = loop_count (worker s) + Z.of_nat waited /\
      empty_count (worker (snd (run turns s)))
      = empty_count (worker s)
        + Z.of_nat (empty_waits (producers (world s))
                      (List.length (items (queue (worker s))))
                      (waits (world s)) waited).
Proof.
  induction turns as [|n IH]; intros s Hk.
  - exists 0%nat. cbn. repeat split; lia.
  - destruct (run_iteration_wait s Hk) as (Hkeep & Hp & Hw & Hl & Hq & He).
    cbn [run]. unfold bind.
    set (pending := items (queue (worker s)) ++ producers (world s) (waits (world s))) in *.
    assert (Hlen : (List.length (items (queue (worker s)))
                    + List.length (producers (world s) (waits (world s))))%nat
                   = List.length pending)
      by (unfold pending; rewrite length_app; reflexivity).
    destruct (run_iteration s) as [[[]|e|] s1]; cbn [fst snd] in *.
    + destruct (IH s1) as (waited & Hw' & Hl' & He'); [congruence|].
      exists (S waited). rewrite Hw', Hl', He', Hw, Hl, He, Hp, Hq.
      cbn [empty_waits]. rewrite Hlen.
      split; [lia|]. split; [lia|].
      destruct pending as [|c rest]; cbn [List.length tl]; lia.
    + exists 1%nat. rewrite Hw, Hl, He. cbn [empty_waits]. rewrite Hlen.
      split; [lia|]. split; [lia|].
      destruct pending as [|c rest]; cbn [List.length]; lia.
    + exists 1%nat. rewrite Hw, Hl, He. cbn [empty_waits]. rewrite Hlen.
      split; [lia|]. split; [lia|].
      destruct pending as [|c rest]; cbn [List.length]; lia.
Qed.

(** X7: [loop_count] counts the turns of [run] that were started and
    [empty_count] the waits among them that timed out.  Whatever the inbox
    and the backend, the empty waits counted are no more than the turns
    started, which are no more than the turns allowed and are all of them
    unless an exception ended the loop.  With a valid keepalive interval
    each turn started made one wait on the inbox, and [empty_count] grew by
    exactly the number of those waits that found nothing to take, given what
    was queued and what the producers put; with a negative interval the
    first turn is counted and raises before any wait. *)
Theorem run_counts_turns (turns : nat) (s : Machine) :
  let s' := snd (run turns s) in
  let started := loop_count (worker s') - loop_count (worker s) in
  let idle := empty_count (worker s') - empty_count (worker s) in
  let waited := (waits (world s') - waits (world s))%nat in
  0 <= idle <= started /\ started <= Z.of_nat turns /\
  (fst (run turns s) = Returned tt -> started = Z.of_nat turns) /\
  (forall e, fst (run turns s) = Raised e -> 1 <= started) /\
  fst (run turns s) <> Blocked /\
  (Qle_bool 0 (keepalive_interval (worker s)) = true ->
   started = Z.of_nat waited /\
   idle = Z.of_nat (empty_waits (producers (world s))
                      (List.length (items (queue (worker s))))
                      (waits (world s)) waited)) /\
  (Qle_bool 0 (keepalive_interval (worker s)) = false ->
   waited = 0%nat /\ idle = 0 /\ started = Z.min 1 (Z.of_nat turns)).
Proof.
  cbv zeta.
  destruct (run_counts_bounds turns s) as (H1 & H2 & H3 & H4 & H5).
  split; [exact H1|]. split; [exact H2|]. split; [exact H3|]. split; [exact H4|].
  split; [exact H5|]. split.
  - intros Hk. destruct (run_waits turns s Hk) as (waited & Hw & Hl & He).
    rewrite Hw, Hl, He, Nat.add_sub. split; lia.
  - intros Hk. destruct turns as [|n].
    + cbn. rewrite Nat.sub_diag. repeat split; lia.
    + cbn [run]. unfold bind. rewrite (run_iteration_negative_timeout s Hk).
      cbn. rewrite Nat.sub_diag. repeat split; lia.
Qed.

(** Three turns on an inbox that receives one command during the first wait. *)
Lemma run_counts_turns_witness :
  let s := sample_machine 100 (fails_then_succeeds 0) (one_command sample_command) in
  let s' := snd (run 3 s) in
  loop_count (worker s') - loop_count (worker s)
  = Z.of_nat (waits (world s') - waits (world s)) /\
  empty_count (worker s') - empty_count (worker s)
  = Z.of_nat (empty_waits (one_command sample_command) 0 0
                (waits (world s') - waits (world s))).
Proof.
  destruct (@run_counts_turns 3
              (sample_machine 100 (fails_then_succeeds 0) (one_command sample_command)))
    as (_ & _ & _ & _ & _ & Hvalid & _).
  exact (Hvalid eq_refl).
Defined.

Example two_empty_waits_of_three :
  let s := sample_machine 100 (fails_then_succeeds 0) (one_command sample_command) in
  empty_count (worker (snd (run 3 s))) = 2 /\
  empty_waits (one_command sample_command) 0 0 3 = 2%nat /\
  written (since s (snd (run 3 s))) = [sample_command].
Proof. vm_compute. repeat split. Qed.

Lemma well_behaved_contract (event : option command) (s : Machine) (n : nat) :
  (forall k, well_behaved (backend (world s) k) = true) ->
  honours_contract event s n.
Proof.
  intros H j _. specialize (H (j + dials (world s))%nat).
  unfold behaviour_at, cycle_succeeds, cycle_fails, cycle_raises.
  destruct (backend (world s) (j + dials (world s))) as [e|[e|]];
    destruct event; cbn in *; rewrite ?H; reflexivity.
Qed.

(** [write] returns when an attempt is allowed and the backend keeps its contract. *)
Lemma write_returns (event : option command) (s : Machine) :
  1 <= attempts (worker s) ->
  honours_contract event s (Z.to_nat (attempts (worker s))) ->
  exists w' new rd d,
    write event s = (Returned tt, evolve s w' new rd d) /\ same_settings (worker s) w'.
Proof.
  intros Hn Hcontract.
  destruct (write_any event s) as (r & w' & new & rd & d & Hw & Hs & _).
  exists w', new, rd, d. split; [|exact Hs]. rewrite Hw. f_equal.
  destruct (contract_cases Hcontract) as [Hall|(k & Hk & Hbefore & Hok)].
  - destruct (@write_exhausted event s Hn Hall) as (new' & Hw' & _). congruence.
  - destruct (@write_until_success event k s ltac:(lia) Hbefore Hok) as (new' & Hw' & _).
    congruence.
Qed.

(** One turn on a backend that keeps its contract: the turn returns and the
    worker is as fit for the next one. *)
Lemma run_iteration_survives (s : Machine) :
  Qle_bool 0 (keepalive_interval (worker s)) = true ->
  1 <= attempts (worker s) ->
  (forall k, well_behaved (backend (world s) k) = true) ->
  exists s',
    run_iteration s = (Returned tt, s') /\
    keepalive_interval (worker s') = keepalive_interval (worker s) /\
    attempts (worker s') = attempts (worker s) /\
    alive (worker s') = alive (worker s) /\
    backend (world s') = backend (world s).
Proof.
  intros Hk Hn Hb. rewrite (run_iteration_spec s Hk).
  destruct (after_poll_frame s) as ((_ & Hk0 & Hn0 & Ha0) & _ & (Hb0 & _)).
  set (s0 := snd (after_poll s)) in *.
  destruct (@write_returns (fst (after_poll s)) s0) as (w' & new & rd & d & -> & Hs).
  - lia.
  - apply well_behaved_contract. rewrite Hb0. exact Hb.
  - eexists. split; [reflexivity|].
    destruct Hs as (_ & Hk' & Hn' & _ & _ & _ & Ha').
    cbn [evolve worker world backend]. repeat split; congruence.
Qed.

(** X8: a worker with a valid keepalive interval and at least one attempt
    allowed, on a backend that fails only with its own exception, never
    dies: [run] completes any number of turns and the thread stays alive. *)
Theorem worker_survives_transport_failures (turns : nat) (s : Machine) :
  Qle_bool 0 (keepalive_interval (worker s)) = true ->
  1 <= attempts (worker s) ->
  (forall k, well_behaved (backend (world s) k) = true) ->
  fst (run turns s) = Returned tt /\
  alive (worker (thread turns s)) = true.
Proof.
  assert (Hrun : forall n s0,
            Qle_bool 0 (keepalive_interval (worker s0)) = true ->
            1 <= attempts (worker s0) ->
            (forall k, well_behaved (backend (world s0) k) = true) ->
            exists s', run n s0 = (Returned tt, s') /\
                       alive (worker s') = alive (worker s0)).
  { induction n as [|n IH]; intros s0 Hk Hn Hb.
    - exists s0. split; reflexivity.
    - destruct (run_iteration_survives s0 Hk Hn Hb) as (s1 & H1 & Hk1 & Hn1 & Ha1 & Hb1).
      destruct (IH s1) as (s' & Hs' & Ha'); [congruence|lia|rewrite Hb1; exact Hb|].
      exists s'. cbn [run]. unfold bind. rewrite H1, Hs'. split; congruence. }
  intros Hk Hn Hb. split.
  - destruct (Hrun turns s Hk Hn Hb) as (s' & -> & _). reflexivity.
  - unfold thread.
    destruct (Hrun turns {| worker := set_alive true (worker s); world := world s |}
                Hk Hn Hb) as (s' & -> & Ha).
    exact Ha.
Qed.

(** A backend that refuses every connection does not kill the worker. *)
Lemma worker_survives_transport_failures_witness :
  fst (run 3 (sample_machine 2 always_fails quiet)) = Returned tt /\
  alive (worker (thread 3 (sample_machine 2 always_fails quiet))) = true.
Proof.
  exact (@worker_survives_transport_failures 3 (sample_machine 2 always_fails quiet)
           eq_refl ltac:(cbn; lia) (fun _ => eq_refl)).
Defined.

(** X9: a worker allowed no attempt dies on its first turn, whatever the
    inbox and the backend: the thread is dead after one turn was counted,
    and no connection was asked and nothing was logged. *)
Theorem worker_without_attempts_dies (turns : nat) (s : Machine) :
  attempts (worker s) <= 0 ->
  let s' := thread (S turns) s in
  alive (worker s') = false /\
  loop_count (worker s') = loop_count (worker s) + 1 /\
  dials (world s') = dials (world s) /\
  trace (world s') = trace (world s).
Proof.
  intros Hn. cbv zeta. unfold thread.
  set (started := {| worker := set_alive true (worker s); world := world s |}).
  cbn [run]. unfold bind.
  destruct (Qle_bool 0 (keepalive_interval (worker started))) eqn:Hk.
  - rewrite (run_iteration_spec started Hk).
    destruct (after_poll_frame started) as ((_ & _ & Hn0 & _) & (Hl0 & _) & (_ & Hd0 & Ht0 & _)).
    rewrite write_unbound by (rewrite Hn0; exact Hn).
    cbn [worker world set_alive alive loop_count dials trace].
    rewrite Hl0, Hd0, Ht0. repeat split.
  - rewrite (run_iteration_negative_timeout started Hk). repeat split.
Qed.

(** A worker constructed with [attempts=0]. *)
Lemma worker_without_attempts_dies_witness :
  alive (worker (thread 5 (sample_machine 0 (fails_then_succeeds 0) quiet))) = false /\
  loop_count (worker (thread 5 (sample_machine 0 (fails_then_succeeds 0) quiet))) = 1.
Proof.
  destruct (@worker_without_attempts_dies 4 (sample_machine 0 (fails_then_succeeds 0) quiet)
              ltac:(cbn; lia)) as (Hdead & Hloop & _).
  split; [exact Hdead|exact Hloop].
Defined.

(** One turn whose first connection cycle succeeds. *)
Lemma run_iteration_first_try (s : Machine) :
  Qle_bool 0 (keepalive_interval (worker s)) = true ->
  1 <= attempts (worker s) ->
  cycle_succeeds (fst (after_poll s)) (behaviour_at s 0) = true ->
  run_iteration s
  = (Returned tt,
     evolve (snd (after_poll s)) (tally (worker (snd (after_poll s))) 0 1)
       (cycle_events (address (worker s)) (fst (after_poll s)) (behaviour_at s 0)) 1 1).
Proof.
  intros Hk Hn Hok. rewrite (run_iteration_spec s Hk).
  destruct (after_poll_frame s) as ((Ha0 & _ & Hn0 & _) & _ & (Hb0 & Hd0 & _)).
  assert (Hsame : behaviour_at (snd (after_poll s)) 0 = behaviour_at s 0).
  { unfold behaviour_at. rewrite Hb0, Hd0. reflexivity. }
  rewrite write_first_try; [|lia|rewrite Hsame; exact Hok].
  rewrite Hsame, Ha0. reflexivity.
Qed.

Lemma since_appended (s s' : Machine) (new : list effect) :
  trace (world s') = trace (world s) ++ new -> since s s' = new.
Proof.
  intros H. unfold since. rewrite H, skipn_app, Nat.sub_diag, skipn_all. reflexivity.
Qed.

(** X10: on an idle inbox the worker keeps the peripheral awake: with no
    command queued or coming and a backend that opens every connection, [n]
    turns of [run] are [n] empty waits, each followed by one connection opened
    and released with nothing written. *)
Theorem idle_worker_sends_keepalives (turns : nat) (s : Machine) :
  Qle_bool 0 (keepalive_interval (worker s)) = true ->
  1 <= attempts (worker s) ->
  items (queue (worker s)) = [] ->
  (forall k, producers (world s) (k + waits (world s))%nat = []) ->
  (forall k, accepts (backend (world s) k) = true) ->
  let s' := snd (run turns s) in
  fst (run turns s) = Returned tt /\
  since s s' = keepalive_cycles (address (worker s)) turns /\
  empty_count (worker s') = empty_count (worker s) + Z.of_nat turns /\
  success_count (worker s') = success_count (worker s) + Z.of_nat turns /\
  failure_count (worker s') = failure_count (worker s) /\
  dials (world s') = (turns + dials (world s))%nat.
Proof.
  intros Hk Hn Hq Hp Hb. cbv zeta.
  enough (Hrun : exists s',
             run turns s = (Returned tt, s') /\
             trace (world s') = trace (world s) ++ keepalive_cycles (address (worker s)) turns /\
             empty_count (worker s') = empty_count (worker s) + Z.of_nat turns /\
             success_count (worker s') = success_count (worker s) + Z.of_nat turns /\
             failure_count (worker s') = failure_count (worker s) /\
             dials (world s') = (turns + dials (world s))%nat).
  { destruct Hrun as (s' & -> & Ht & He & Hs & Hf & Hd). cbn [fst snd].
    rewrite (@since_appended s s' _ Ht). repeat split; assumption. }
  revert s Hk Hn Hq Hp Hb. induction turns as [|n IH]; intros s Hk Hn Hq Hp Hb.
  - exists s. cbn. rewrite app_nil_r, !Z.add_0_r. repeat split.
  - assert (Hpoll : after_poll s
                    = (None,
                       {| worker :=
                            set_empty_count (empty_count (worker s) + 1)
                              (set_queue {| maxsize := maxsize (queue (worker s)); items := [] |}
                                 (set_loop_count (loop_count (worker s) + 1) (worker s)));
                          world := next_wait (world s) |})).
    { unfold after_poll. rewrite Hq. cbn [app].
      pose proof (Hp 0%nat) as Hp0. cbn [Nat.add] in Hp0. rewrite Hp0. reflexivity. }
    assert (Hopen : exists wr, behaviour_at s 0 = Connected wr).
    { specialize (Hb (dials (world s))). unfold behaviour_at. cbn [Nat.add].
      destruct (backend (world s) (dials (world s))) as [e|wr]; [discriminate|eauto]. }
    destruct Hopen as (wr & Hopen).
    pose proof (@run_iteration_first_try s Hk Hn) as Hturn.
    rewrite Hpoll, Hopen in Hturn. cbn [fst snd] in Hturn. specialize (Hturn eq_refl).
    cbn [cycle_events app] in Hturn.
    set (s1 := evolve _ _ _ 1 1) in Hturn.
    destruct (IH s1) as (s' & Hrun & Ht & He & Hs & Hf & Hd).
    + exact Hk.
    + exact Hn.
    + reflexivity.
    + intros k. unfold s1; cbn. rewrite <- (Hp (S k)). f_equal. lia.
    + intros k. unfold s1; cbn. apply Hb.
    + exists s'. cbn [run]. unfold bind. rewrite Hturn, Hrun.
      split; [reflexivity|]. rewrite Ht, He, Hs, Hf, Hd. unfold s1; cbn.
      unfold keepalive_cycles. cbn [repeat List.concat].
      rewrite <- app_assoc. cbn [app]. repeat split; lia.
Qed.

(** Three idle turns on a backend that opens every connection. *)
Lemma idle_worker_sends_keepalives_witness :
  let s := sample_machine 100 (fails_then_succeeds 0) quiet in
  let s' := snd (run 3 s) in
  fst (run 3 s) = Returned tt /\
  since s s' = keepalive_cycles sample_address 3 /\
  empty_count (worker s') = 3.
Proof.
  destruct (@idle_worker_sends_keepalives 3 (sample_machine 100 (fails_then_succeeds 0) quiet)
              eq_refl ltac:(cbn; lia) eq_refl (fun _ => eq_refl) (fun _ => eq_refl))
    as (Hret & Htrace & Hempty & _).
  repeat split; assumption.
Defined.

(** The turns that empty the head of the inbox, on a backend that opens
    every connection and takes every write. *)
Lemma drain_inbox (pending rest : list command) (s : Machine) :
  Qle_bool 0 (keepalive_interval (worker s)) = true ->
  1 <= attempts (worker s) ->
  items (queue (worker s)) = pending ++ rest ->
  (forall k, backend (world s) k = Connected None) ->
  exists s' new,
    run (List.length pending) s = (Returned tt, s') /\
    trace (world s') = trace (world s) ++ new /\
    written new = pending /\ write_calls new = pending /\
    dials (world s') = (List.length pending + dials (world s))%nat /\
    empty_count (worker s') = empty_count (worker s) /\
    items (queue (worker s'))
    = rest ++ put_during (producers (world s)) (waits (world s)) (List.length pending).
Proof.
  intros Hk Hn Hq Hb.
  revert rest s Hk Hn Hq Hb.
  induction pending as [|[h p] pending IH]; intros rest s Hk Hn Hq Hb.
  - exists s, []. cbn. rewrite !app_nil_r. repeat split. exact Hq.
  - set (arrivals := producers (world s) (waits (world s))).
    assert (Hpoll : after_poll s
                    = (@Some command (h, p),
                       {| worker :=
                            set_queue {| maxsize := maxsize (queue (worker s));
                                         items := pending ++ rest ++ arrivals |}
                              (set_loop_count (loop_count (worker s) + 1) (worker s));
                          world := next_wait (world s) |})).
    { unfold after_poll. rewrite Hq. cbn [app]. rewrite <- app_assoc. reflexivity. }
    assert (Hopen : behaviour_at s 0 = Connected None) by apply Hb.
    pose proof (@run_iteration_first_try s Hk Hn) as Hturn.
    rewrite Hpoll, Hopen in Hturn. cbn [fst snd] in Hturn. specialize (Hturn eq_refl).
    cbn [cycle_events app] in Hturn.
    set (s1 := evolve _ _ _ 1 1) in Hturn.
    destruct (IH (rest ++ arrivals) s1) as (s' & new & Hrun & Ht & Hw & Hc & Hd & He & Hrest).
    + exact Hk.
    + exact Hn.
    + reflexivity.
    + intros k. apply Hb.
    + exists s',
        ([EvConnect (address (worker s)); EvWriteHandle h p;
          EvDisconnect (address (worker s))] ++ new).
      cbn [List.length run]. unfold bind. rewrite Hturn, Hrun.
      split; [reflexivity|]. split; [|split; [|split; [|split; [|split]]]].
      * rewrite Ht. unfold s1; cbn. rewrite <- app_assoc. reflexivity.
      * rewrite written_app, Hw. reflexivity.
      * unfold write_calls in *. rewrite flat_map_app, Hc. reflexivity.
      * rewrite Hd. unfold s1; cbn. lia.
      * rewrite He. reflexivity.
      * rewrite Hrest. unfold put_during, s1, arrivals. cbn.
        rewrite app_assoc. reflexivity.
Qed.


(** X11: the inbox is first in, first out, and each command is applied
    once: with commands [pending] at the head of the queue and a backend that
    opens every connection and takes every write, as many turns of [run] as
    there are commands write exactly those commands, in their order, one
    connection each, and leave in the queue what was behind them followed
    by what the producers put during the waits of those turns, in the order
    they put it. *)
Theorem worker_applies_commands_in_order (pending rest : list command) (s : Machine) :
  Qle_bool 0 (keepalive_interval (worker s)) = true ->
  1 <= attempts (worker s) ->
  items (queue (worker s)) = pending ++ rest ->
  (forall k, backend (world s) k = Connected None) ->
  let turns := List.length pending in
  let s' := snd (run turns s) in
  fst (run turns s) = Returned tt /\
  written (since s s') = pending /\
  write_calls (since s s') = pending /\
  dials (world s') = (turns + dials (world s))%nat /\
  empty_count (worker s') = empty_count (worker s) /\
  items (queue (worker s'))
  = rest ++ put_during (producers (world s)) (waits (world s)) turns.
Proof.
  intros Hk Hn Hq Hb. cbv zeta.
  destruct (drain_inbox pending rest s Hk Hn Hq Hb)
    as (s' & new & -> & Ht & Hw & Hc & Hd & He & Hrest).
  cbn [fst snd]. rewrite (@since_appended s s' _ Ht). repeat split; assumption.
Qed.

(** Power on, then power off, queued before the worker's next turn. *)
Lemma worker_applies_commands_in_order_witness :
  let on := (7, [xcc; x23; x33]) in
  let off := (7, [xcc; x24; x33]) in
  let s := loaded_machine 100 (fails_then_succeeds 0) quiet [on; off] in
  written (since s (snd (run 2 s))) = [on; off].
Proof.
  destruct (@worker_applies_commands_in_order
              [(7, [xcc; x23; x33]); (7, [xcc; x24; x33])] []
              (loaded_machine 100 (fails_then_succeeds 0) quiet
                 [(7, [xcc; x23; x33]); (7, [xcc; x24; x33])])
              eq_refl ltac:(cbn; lia) eq_refl (fun _ => eq_refl))
    as (_ & Hwritten & _).
  exact Hwritten.
Defined.

(** ** From the interactor to the peripheral *)

(** X12: a persistent interactor just constructed, asked to write two
    values that are not negative, logs no error and has its worker write the
    two packed values to handle 7, in the order asked, in its next two
    turns, when the backend opens every connection and takes every write. *)
Theorem fresh_interactor_delivers_in_order (address : string) (w : World) (v1 v2 : Z) :
  0 <= v1 -> 0 <= v2 ->
  (forall k, backend w k = Connected None) ->
  let self := fst (BtlewrapRGBWInteractor.init address w) in
  let s0 := snd (BtlewrapRGBWInteractor.init address w) in
  let s1 := snd (BtlewrapRGBWInteractor._write self v1 s0) in
  let s2 := snd (BtlewrapRGBWInteractor._write self v2 s1) in
  let s3 := snd (run 2 s2) in
  exists p1 p2,
    BtlewrapRGBWInteractor._pack v1 = Returned p1 /\
    BtlewrapRGBWInteractor._pack v2 = Returned p2 /\
    fst (BtlewrapRGBWInteractor._write self v1 s0) = Returned tt /\
    fst (BtlewrapRGBWInteractor._write self v2 s1) = Returned tt /\
    errors (since s0 s2) = [] /\
    fst (run 2 s2) = Returned tt /\
    written (since s2 s3) = [(7, p1); (7, p2)].
Proof.
  intros H1 H2 Hb self s0 s1 s2 s3.
  pose proof (pack_nonneg H1) as Hp1. pose proof (pack_nonneg H2) as Hp2.
  set (p1 := Py.big_endian _ v1) in Hp1. set (p2 := Py.big_endian _ v2) in Hp2.
  exists p1, p2.
  assert (Hw1 : BtlewrapRGBWInteractor._write self v1 s0 = _)
    by (apply (@persistent_write_spec self v1 s0 p1); [cbn; lia|exact Hp1]).
  assert (Hs1 : s1 = snd (BtlewrapRGBWInteractor._write self v1 s0)) by reflexivity.
  rewrite Hw1 in Hs1. cbn [snd] in Hs1.
  assert (Hw2 : BtlewrapRGBWInteractor._write self v2 s1 = _)
    by (apply (@persistent_write_spec self v2 s1 p2); [rewrite Hs1; cbn; lia|exact Hp2]).
  assert (Hs2 : s2 = snd (BtlewrapRGBWInteractor._write self v2 s1)) by reflexivity.
  rewrite Hw2 in Hs2. cbn [snd] in Hs2.
  split; [exact Hp1|]. split; [exact Hp2|].
  split; [rewrite Hw1; reflexivity|]. split; [rewrite Hw2; reflexivity|].
  assert (Hitems : items (queue (worker s2))
                   = [(RGBWInteractor.control_handle, p1);
                      (RGBWInteractor.control_handle, p2)] ++ [])
    by (rewrite Hs2, Hs1; reflexivity).
  assert (Hk : Qle_bool 0 (keepalive_interval (worker s2)) = true)
    by (rewrite Hs2, Hs1; reflexivity).
  assert (Hn : 1 <= attempts (worker s2)) by (rewrite Hs2, Hs1; cbn; lia).
  assert (Hb2 : forall k, backend (world s2) k = Connected None)
    by (rewrite Hs2, Hs1; exact Hb).
  destruct (@drain_inbox [(RGBWInteractor.control_handle, p1);
                          (RGBWInteractor.control_handle, p2)] [] s2 Hk Hn Hitems Hb2)
    as (s' & new & Hrun & Ht & Hwr & _).
  split.
  - rewrite Hs2, Hs1. unfold since. cbn. rewrite <- !app_assoc.
    rewrite skipn_app, Nat.sub_diag, skipn_all. reflexivity.
  - subst s3. cbn [List.length] in Hrun. rewrite Hrun. cbn [fst snd].
    rewrite (@since_appended s2 s' _ Ht). split; [reflexivity|exact Hwr].
Qed.

(** Power on, then full red, through a fresh interactor. *)
Lemma fresh_interactor_delivers_in_order_witness :
  let w := sample_world (fails_then_succeeds 0) quiet (fun _ => 0) in
  let self := fst (BtlewrapRGBWInteractor.init sample_address w) in
  let s0 := snd (BtlewrapRGBWInteractor.init sample_address w) in
  let s1 := snd (BtlewrapRGBWInteractor._write self 0xcc2333 s0) in
  let s2 := snd (BtlewrapRGBWInteractor._write self 0x56ff000000f0aa s1) in
  exists p1 p2,
    BtlewrapRGBWInteractor._pack 0xcc2333 = Returned p1 /\
    BtlewrapRGBWInteractor._pack 0x56ff000000f0aa = Returned p2 /\
    written (since s2 (snd (run 2 s2))) = [(7, p1); (7, p2)].
Proof.
  destruct (@fresh_interactor_delivers_in_order sample_address
              (sample_world (fails_then_succeeds 0) quiet (fun _ => 0))
              0xcc2333 0x56ff000000f0aa ltac:(lia) ltac:(lia) (fun _ => eq_refl))
    as (p1 & p2 & Hp1 & Hp2 & _ & _ & _ & _ & Hwritten).
  exists p1, p2. repeat split; assumption.
Defined.

(** ** Payloads *)

(** X13: packing loses nothing: every value that is not negative is read
    back, big-endian, from its packed bytes, so two such values with the same
    payload are the same value. *)
Theorem pack_round_trip_injective (v1 v2 : Z) :
  0 <= v1 -> 0 <= v2 ->
  (exists packed, BtlewrapRGBWInteractor._pack v1 = Returned packed /\
                  Py.from_bytes packed = v1) /\
  (BtlewrapRGBWInteractor._pack v1 = BtlewrapRGBWInteractor._pack v2 -> v1 = v2).
Proof.
  assert (Hback : forall v, 0 <= v ->
            Py.from_bytes (Py.big_endian (Z.to_nat (Py.ceil_div (Py.bit_length v) 8)) v) = v).
  { intros v Hv. rewrite from_bytes_big_endian by exact Hv.
    destruct (Z.eq_dec v 0) as [->|Hne]; [reflexivity|].
    destruct (@num_bytes_bounds v ltac:(lia)) as (Hn & _ & Hhi).
    apply Z.mod_small. rewrite Z2Nat.id by lia. lia. }
  intros H1 H2. split.
  - eexists. split; [apply pack_nonneg; exact H1|apply Hback; exact H1].
  - rewrite !pack_nonneg by assumption. intros Heq. injection Heq as Heq.
    rewrite <- (Hback v1 H1), <- (Hback v2 H2), Heq. reflexivity.
Qed.

(** The two power commands have different payloads. *)
Lemma pack_round_trip_injective_witness :
  exists packed, BtlewrapRGBWInteractor._pack 0xcc2333 = Returned packed /\
                 Py.from_bytes packed = 0xcc2333.
Proof.
  exact (proj1 (@pack_round_trip_injective 0xcc2333 0xcc2433 ltac:(lia) ltac:(lia))).
Defined.

(** X14: a command whose payload is empty is still a command: [write]
    tests the event, not its payload, so the empty payload is written to the
    handle, where a keepalive writes nothing. *)
Theorem empty_payload_is_written (handle : Z) (s : Machine) :
  1 <= attempts (worker s) ->
  behaviour_at s 0 = Connected None ->
  write_calls (since s (snd (write (Some (handle, [])) s))) = [(handle, [])] /\
  write_calls (since s (snd (write None s))) = [].
Proof.
  intros Hn Hb. split.
  - rewrite (@write_first_try (Some (handle, [])) s Hn)
      by (rewrite Hb; reflexivity).
    cbn [snd]. rewrite since_evolve, Hb. reflexivity.
  - rewrite (@write_first_try None s Hn) by (rewrite Hb; reflexivity).
    cbn [snd]. rewrite since_evolve, Hb. reflexivity.
Qed.

(** The command the persistent writer queues for the value 0. *)
Lemma empty_payload_is_written_witness :
  write_calls (since (sample_machine 100 (fails_then_succeeds 0) quiet)
                 (snd (write (Some (7, []))
                         (sample_machine 100 (fails_then_succeeds 0) quiet))))
  = [(7, [])].
Proof.
  exact (proj1 (@empty_payload_is_written 7
                  (sample_machine 100 (fails_then_succeeds 0) quiet)
                  ltac:(cbn; lia) eq_refl)).
Defined.

(** ** A turn of the main loop, up to its successful cycle *)










(** ** What the synchronous writer runs *)




